(** * ing: one-dimensional SDE models, their calibration and data utilities

    A shallow embedding of the Python package [ing]:

    - [ing/fit/models.py]    the abstract base class [Model];
    - [ing/fit/cir.py]       the Cox-Ingersoll-Ross model [CIR];
    - [ing/optm/minimizer.py] [Result], [ScipyMinimizer];
    - [ing/utils/data_utils.py] error metric and hitting-time helpers.

    Conventions of the embedding.

    - In the drift, the diffusion, their finite differences and the data
      utilities a Python [float] is an element of [R]: the arithmetic is the
      exact one.
    - The transition density is computed in [Np.float64], the numbers of
      numpy: the reals together with the two infinities, the negative zero
      and NaN.  A result of magnitude [2^1024] or more is an infinity, one
      of magnitude [2^-1075] or less is a zero, and an invalid operation
      gives NaN; inside that range the result is the exact one, so
      rounding is the only thing left out.
    - [scipy.special.ive] and [scipy.optimize.minimize] are library routines
      whose code is not part of the package: they are section variables.
    - A call that may raise returns a [result]; a method that reads [self]
      takes the object state as an argument, the property setter returns the
      new state.
    - A class is the table of the methods its body defines ([ClassBody]);
      a method the body does not define is looked up in [Model]. *)

From Stdlib Require Import Reals List String ZArith Bool Arith Lia Lra.
Import ListNotations.
Open Scope string_scope.
Open Scope R_scope.

(** ** Python exceptions and results *)

Inductive exn : Type :=
| NotImplementedError
| ValueError
| TypeError
| IndexError
| ZeroDivisionError.

Inductive result (A : Type) : Type :=
| Ok (a : A)
| Raise (e : exn).

Arguments Ok {A} a.
Arguments Raise {A} e.

Definition bind {A B : Type} (r : result A) (k : A -> result B) : result B :=
  match r with
  | Ok a => k a
  | Raise e => Raise e
  end.

Notation "x <- r ;; k" := (bind r (fun x => k))
  (at level 61, r at next level, right associativity).

Definition result_map {A B : Type} (f : A -> B) (r : result A) : result B :=
  x <- r ;; Ok (f x).

(** [l[i]] for a non-negative literal index. *)
Definition getitem (l : list R) (i : nat) : result R :=
  match nth_error l i with
  | Some v => Ok v
  | None => Raise IndexError
  end.

(** [a, b, c = p]: [TypeError] when [p] is [None], [ValueError] when the
    number of values is not three. *)
Definition unpack3 (p : option (list R)) : result (R * R * R) :=
  match p with
  | None => Raise TypeError
  | Some [a; b; c] => Ok (a, b, c)
  | Some _ => Raise ValueError
  end.

(** ** numpy's float64 arithmetic *)

Module Np.

Inductive float64 : Type :=
| Finite (r : R)
| NegZero
| PInf
| NInf
| NaN.

(** [Finite 0] is [+0.0]. *)

Definition overflow_bound : R := 2 ^ 1024.
Definition underflow_bound : R := / 2 ^ 1075.

Definition negative (r : R) : bool := if Rlt_dec r 0 then true else false.

Definition zero (sign : bool) : float64 := if sign then NegZero else Finite 0.
Definition inf (sign : bool) : float64 := if sign then NInf else PInf.

(** The finite non-zero range: what [round] leaves as it is. *)
Definition in_range (r : R) : Prop :=
  underflow_bound < Rabs r < overflow_bound.

(** The float64 of an operation whose exact result is [r]. *)
Definition round (r : R) : float64 :=
  if Rle_dec overflow_bound (Rabs r) then inf (negative r)
  else if Rle_dec (Rabs r) underflow_bound then zero (negative r)
  else Finite r.

Inductive kind : Type :=
| KNaN
| KInf (sign : bool)
| KZero (sign : bool)
| KNum (r : R).

Definition classify (a : float64) : kind :=
  match a with
  | Finite r => if Req_dec_T r 0 then KZero false else KNum r
  | NegZero => KZero true
  | PInf => KInf false
  | NInf => KInf true
  | NaN => KNaN
  end.

Definition neg (a : float64) : float64 :=
  match classify a with
  | KNaN => NaN
  | KInf s => inf (negb s)
  | KZero s => zero (negb s)
  | KNum x => Finite (- x)
  end.

Definition abs (a : float64) : float64 :=
  match classify a with
  | KNaN => NaN
  | KInf _ => PInf
  | KZero _ => Finite 0
  | KNum x => Finite (Rabs x)
  end.

Definition add (a b : float64) : float64 :=
  match classify a, classify b with
  | KNaN, _ | _, KNaN => NaN
  | KInf s, KInf t => if Bool.eqb s t then inf s else NaN
  | KInf s, _ => inf s
  | _, KInf t => inf t
  | KZero s, KZero t => zero (s && t)
  | KZero _, KNum y => Finite y
  | KNum x, KZero _ => Finite x
  | KNum x, KNum y => round (x + y)
  end.

Definition sub (a b : float64) : float64 := add a (neg b).

Definition mul (a b : float64) : float64 :=
  match classify a, classify b with
  | KNaN, _ | _, KNaN => NaN
  | KInf _, KZero _ | KZero _, KInf _ => NaN
  | KInf s, KInf t => inf (xorb s t)
  | KInf s, KNum y => inf (xorb s (negative y))
  | KNum x, KInf t => inf (xorb (negative x) t)
  | KZero s, KZero t => zero (xorb s t)
  | KZero s, KNum y => zero (xorb s (negative y))
  | KNum x, KZero t => zero (xorb (negative x) t)
  | KNum x, KNum y => round (x * y)
  end.

(** numpy does not raise on a zero divisor: it returns an infinity or
    NaN. *)
Definition div (a b : float64) : float64 :=
  match classify a, classify b with
  | KNaN, _ | _, KNaN => NaN
  | KInf _, KInf _ | KZero _, KZero _ => NaN
  | KInf s, KZero t => inf (xorb s t)
  | KInf s, KNum y => inf (xorb s (negative y))
  | KZero s, KInf t => zero (xorb s t)
  | KNum x, KInf t => zero (xorb (negative x) t)
  | KZero s, KNum y => zero (xorb s (negative y))
  | KNum x, KZero t => inf (xorb (negative x) t)
  | KNum x, KNum y => round (x / y)
  end.

(** The type of a special function of two arguments, such as
    [scipy.special.ive]. *)
Definition routine2 : Type := float64 -> float64 -> float64.

(** [np.exp]. *)
Definition exp (a : float64) : float64 :=
  match classify a with
  | KNaN => NaN
  | KInf false => PInf
  | KInf true => Finite 0
  | KZero _ => Finite 1
  | KNum x => round (Rtrigo_def.exp x)
  end.

(** [np.sqrt]. *)
Definition sqrt (a : float64) : float64 :=
  match classify a with
  | KNaN => NaN
  | KInf false => PInf
  | KInf true => NaN
  | KZero s => zero s
  | KNum x => if Rlt_dec x 0 then NaN else round (R_sqrt.sqrt x)
  end.

Definition is_integer (y : R) : bool :=
  if Req_dec_T y (IZR (Int_part y)) then true else false.

Definition is_odd_integer (y : R) : bool :=
  is_integer y && Z.odd (Int_part y).

(** [a ** b], the [pow] of the C library. *)
Definition power (a b : float64) : float64 :=
  match classify b with
  | KZero _ => Finite 1
  | KNaN =>
      match classify a with
      | KNum x => if Req_dec_T x 1 then Finite 1 else NaN
      | _ => NaN
      end
  | KInf t =>
      match classify a with
      | KNaN => NaN
      | KInf _ => if t then Finite 0 else PInf
      | KZero _ => if t then PInf else Finite 0
      | KNum x =>
          if Req_dec_T (Rabs x) 1 then Finite 1
          else if Rlt_dec (Rabs x) 1 then (if t then PInf else Finite 0)
          else (if t then Finite 0 else PInf)
      end
  | KNum y =>
      match classify a with
      | KNaN => NaN
      | KInf s =>
          if negative y then zero (s && is_odd_integer y)
          else inf (s && is_odd_integer y)
      | KZero s =>
          if negative y then inf (s && is_odd_integer y)
          else zero (s && is_odd_integer y)
      | KNum x =>
          if Rlt_dec 0 x then round (Rpower x y)
          else if is_integer y then
            if Z.odd (Int_part y) then round (- Rpower (- x) y)
            else round (Rpower (- x) y)
          else NaN
      end
  end.

End Np.

(** ** ing/fit/models.py *)

Module Models.

(** The instance attributes set by [Model.__init__]. *)
Record Model : Type := mkModel {
  _has_exact_density : bool;
  _params : option (list R);
  _positive : bool;
  _default_sim_method : string
}.

Definition Model__init__ (has_exact_density : bool)
  (default_sim_method : string) : Model :=
  {| _has_exact_density := has_exact_density;
     _params := None;
     _positive := false;
     _default_sim_method := default_sim_method |}.

(** Default values of the keyword arguments of [Model.__init__]. *)
Definition has_exact_density_default : bool := false.
Definition default_sim_method_default : string := "Milstein".

Definition method2 : Type := Model -> R -> R -> result R.
Definition method4 : Type := Model -> R -> R -> R -> R -> result R.

(** The density is a number of numpy: it may be an infinity or NaN. *)
Definition density_method : Type :=
  Model -> R -> R -> R -> R -> result Np.float64.

(** What the body of a concrete subclass of [Model] defines.  [drift] and
    [diffusion] are abstract in [Model], so a class that can be instantiated
    defines both; every other method is optional. *)
Record ClassBody : Type := mkClass {
  def_drift : method2;
  def_diffusion : method2;
  def_exact_density : option density_method;
  def_exact_step : option method4;
  def_drift_x : option method2;
  def_drift_t : option method2;
  def_drift_xx : option method2;
  def_diffusion_x : option method2;
  def_diffusion_xx : option method2;
  def__set_is_positive : option (list R -> bool)
}.

(** Method resolution: the subclass body first, then [Model]. *)
Definition resolve {A : Type} (override : option A) (base : A) : A :=
  match override with
  | Some m => m
  | None => base
  end.

Definition drift (C : ClassBody) : method2 := def_drift C.
Definition diffusion (C : ClassBody) : method2 := def_diffusion C.

(** Properties without a setter. *)
Definition params (self : Model) : option (list R) := _params self.
Definition has_exact_density (self : Model) : bool := _has_exact_density self.
Definition is_positive (self : Model) : bool := _positive self.
Definition default_sim_method (self : Model) : string :=
  _default_sim_method self.

(** The bodies of the methods of [Model]. *)

Definition Model_exact_density : density_method :=
  fun self x0 xt t0 dt => Raise NotImplementedError.

Definition Model_exact_step : method4 :=
  fun self t dt x dZ => Raise NotImplementedError.

Definition Model__set_is_positive (params : list R) : bool := false.

Definition Model_drift_x (C : ClassBody) : method2 :=
  fun self x t =>
    let h := 1e-05 in
    a <- drift C self (x + h) t ;;
    b <- drift C self (x - h) t ;;
    Ok ((a - b) / (2 * h)).

Definition Model_drift_t (C : ClassBody) : method2 :=
  fun self x t =>
    let h := 1e-05 in
    a <- drift C self x (t + h) ;;
    b <- drift C self x t ;;
    Ok ((a - b) / h).

Definition Model_drift_xx (C : ClassBody) : method2 :=
  fun self x t =>
    let h := 1e-05 in
    a <- drift C self (x + h) t ;;
    b <- drift C self x t ;;
    c <- drift C self (x - h) t ;;
    Ok ((a - 2 * b + c) / (h * h)).

Definition Model_diffusion_x (C : ClassBody) : method2 :=
  fun self x t =>
    let h := 1e-05 in
    a <- diffusion C self (x + h) t ;;
    b <- diffusion C self (x - h) t ;;
    Ok ((a - b) / (2 * h)).

Definition Model_diffusion_xx (C : ClassBody) : method2 :=
  fun self x t =>
    let h := 1e-05 in
    a <- diffusion C self (x + h) t ;;
    b <- diffusion C self x t ;;
    c <- diffusion C self (x - h) t ;;
    Ok ((a - 2 * b + c) / (h * h)).

(** Dynamic dispatch of the overridable methods. *)

Definition exact_density (C : ClassBody) : density_method :=
  resolve (def_exact_density C) Model_exact_density.
Definition exact_step (C : ClassBody) : method4 :=
  resolve (def_exact_step C) Model_exact_step.
Definition drift_x (C : ClassBody) : method2 :=
  resolve (def_drift_x C) (Model_drift_x C).
Definition drift_t (C : ClassBody) : method2 :=
  resolve (def_drift_t C) (Model_drift_t C).
Definition drift_xx (C : ClassBody) : method2 :=
  resolve (def_drift_xx C) (Model_drift_xx C).
Definition diffusion_x (C : ClassBody) : method2 :=
  resolve (def_diffusion_x C) (Model_diffusion_x C).
Definition diffusion_xx (C : ClassBody) : method2 :=
  resolve (def_diffusion_xx C) (Model_diffusion_xx C).
Definition _set_is_positive (C : ClassBody) : list R -> bool :=
  resolve (def__set_is_positive C) Model__set_is_positive.

(** The setter of the [params] property: the flag is computed from [vals]
    first, the vector is stored second. *)
Definition params_setter (C : ClassBody) (self : Model) (vals : list R)
  : Model :=
  let self1 :=
    {| _has_exact_density := _has_exact_density self;
       _params := _params self;
       _positive := _set_is_positive C vals;
       _default_sim_method := _default_sim_method self |} in
  {| _has_exact_density := _has_exact_density self1;
     _params := Some vals;
     _positive := _positive self1;
     _default_sim_method := _default_sim_method self1 |}.

(** The public interface of a model object, one constructor per attribute
    access or method call, and the values they return. *)
Inductive call : Type :=
| Get_params
| Set_params (vals : list R)
| Get_has_exact_density
| Call_exact_density (x0 xt t0 dt : R)
| Call_exact_step (t dt x dZ : R)
| Call_drift (x t : R)
| Call_diffusion (x t : R)
| Call_drift_x (x t : R)
| Call_drift_t (x t : R)
| Call_drift_xx (x t : R)
| Call_diffusion_x (x t : R)
| Call_diffusion_xx (x t : R)
| Get_is_positive
| Get_default_sim_method.

Inductive value : Type :=
| VNone
| VBool (b : bool)
| VFloat (r : R)
| VFloat64 (f : Np.float64)
| VStr (s : string)
| VArray (a : list R).

Definition params_value (p : option (list R)) : value :=
  match p with
  | Some a => VArray a
  | None => VNone
  end.

(** One interaction with an object of class [C]: what the caller gets and
    the state of the object afterwards. *)
Definition invoke (C : ClassBody) (c : call) (self : Model)
  : result value * Model :=
  match c with
  | Get_params => (Ok (params_value (params self)), self)
  | Set_params vals => (Ok VNone, params_setter C self vals)
  | Get_has_exact_density => (Ok (VBool (has_exact_density self)), self)
  | Call_exact_density x0 xt t0 dt =>
      (result_map VFloat64 (exact_density C self x0 xt t0 dt), self)
  | Call_exact_step t dt x dZ =>
      (result_map VFloat (exact_step C self t dt x dZ), self)
  | Call_drift x t => (result_map VFloat (drift C self x t), self)
  | Call_diffusion x t => (result_map VFloat (diffusion C self x t), self)
  | Call_drift_x x t => (result_map VFloat (drift_x C self x t), self)
  | Call_drift_t x t => (result_map VFloat (drift_t C self x t), self)
  | Call_drift_xx x t => (result_map VFloat (drift_xx C self x t), self)
  | Call_diffusion_x x t =>
      (result_map VFloat (diffusion_x C self x t), self)
  | Call_diffusion_xx x t =>
      (result_map VFloat (diffusion_xx C self x t), self)
  | Get_is_positive => (Ok (VBool (is_positive self)), self)
  | Get_default_sim_method => (Ok (VStr (default_sim_method self)), self)
  end.

(** A sequence of interactions, oldest first; an exception raised by one of
    them is seen by the caller and does not stop the later ones. *)
Fixpoint run (C : ClassBody) (cs : list call) (self : Model) : Model :=
  match cs with
  | [] => self
  | c :: cs' => run C cs' (snd (invoke C c self))
  end.

Definition is_set (c : call) : bool :=
  match c with
  | Set_params _ => true
  | _ => false
  end.

(** The flag is the predicate of the stored vector, whenever one is
    stored. *)
Definition flag_tracks_params (C : ClassBody) (s : Model) : Prop :=
  forall w, params s = Some w -> is_positive s = _set_is_positive C w.

End Models.

(** ** ing/fit/cir.py *)

Module Cir.
Import Models.

Section Scipy.

(** [scipy.special.ive(v, z)], the exponentially scaled modified Bessel
    function of the first kind. *)
Variable ive : Np.routine2.

Definition CIR__init__ : Model :=
  Model__init__ true default_sim_method_default.

Definition CIR_drift : method2 :=
  fun self x t =>
    match _params self with
    | None => Raise TypeError
    | Some p =>
        p0 <- getitem p 0 ;;
        p1 <- getitem p 1 ;;
        Ok (p0 * (p1 - x))
    end.

Definition CIR_diffusion : method2 :=
  fun self x t =>
    match _params self with
    | None => Raise TypeError
    | Some p =>
        p2 <- getitem p 2 ;;
        Ok (p2 * sqrt x)
    end.

(** The parameters are entries of a numpy array and the arguments are
    floats: every operation below is numpy's. *)
Definition CIR_exact_density : density_method :=
  fun self x0 xt t0 dt =>
    kms <- unpack3 (_params self) ;;
    let '(kappa, mu, sigma) := kms in
    let theta1 := Np.mul (Np.Finite kappa) (Np.Finite mu) in
    let theta2 := Np.Finite kappa in
    let theta3 := Np.Finite sigma in
    let x0 := Np.Finite x0 in
    let xt := Np.Finite xt in
    let dt := Np.Finite dt in
    let et := Np.exp (Np.mul (Np.neg theta2) dt) in
    let c :=
      Np.div (Np.mul (Np.Finite 2) theta2)
        (Np.mul (Np.power theta3 (Np.Finite 2))
           (Np.sub (Np.Finite 1) et)) in
    let u := Np.mul (Np.mul c x0) et in
    let v := Np.mul c xt in
    let q :=
      Np.sub
        (Np.div (Np.mul (Np.Finite 2) theta1)
           (Np.power theta3 (Np.Finite 2)))
        (Np.Finite 1) in
    let z := Np.mul (Np.Finite 2) (Np.sqrt (Np.mul u v)) in
    let p :=
      Np.mul
        (Np.mul c (Np.exp (Np.add (Np.neg (Np.add u v)) (Np.abs z))))
        (Np.power (Np.div v u) (Np.div q (Np.Finite 2))) in
    let z := Np.mul (Np.Finite 2) (Np.sqrt (Np.mul u v)) in
    let p := Np.mul p (ive q z) in
    Ok p.

Definition CIR__set_is_positive (params : list R) : bool := true.

Definition CIR_drift_t : method2 := fun self x t => Ok 0.

Definition CIR : ClassBody :=
  {| def_drift := CIR_drift;
     def_diffusion := CIR_diffusion;
     def_exact_density := Some CIR_exact_density;
     def_exact_step := None;
     def_drift_x := None;
     def_drift_t := Some CIR_drift_t;
     def_drift_xx := None;
     def_diffusion_x := None;
     def_diffusion_xx := None;
     def__set_is_positive := Some CIR__set_is_positive |}.

(** The quantities of the specification, in numpy's arithmetic. *)
Definition spec_et (kappa dt : R) : Np.float64 :=
  Np.exp (Np.mul (Np.neg (Np.Finite kappa)) (Np.Finite dt)).

Definition spec_c (kappa sigma dt : R) : Np.float64 :=
  Np.div (Np.mul (Np.Finite 2) (Np.Finite kappa))
    (Np.mul (Np.power (Np.Finite sigma) (Np.Finite 2))
       (Np.sub (Np.Finite 1) (spec_et kappa dt))).

Definition spec_u (kappa sigma x0 dt : R) : Np.float64 :=
  Np.mul (Np.mul (spec_c kappa sigma dt) (Np.Finite x0)) (spec_et kappa dt).

Definition spec_v (kappa sigma xt dt : R) : Np.float64 :=
  Np.mul (spec_c kappa sigma dt) (Np.Finite xt).

Definition spec_q (kappa mu sigma : R) : Np.float64 :=
  Np.sub
    (Np.div (Np.mul (Np.Finite 2) (Np.mul (Np.Finite kappa) (Np.Finite mu)))
       (Np.power (Np.Finite sigma) (Np.Finite 2)))
    (Np.Finite 1).

Definition spec_z (kappa sigma x0 xt dt : R) : Np.float64 :=
  Np.mul (Np.Finite 2)
    (Np.sqrt (Np.mul (spec_u kappa sigma x0 dt) (spec_v kappa sigma xt dt))).

(** The scaled exponential of the density, on one exponent. *)
Definition scaled_exponential (kappa sigma x0 xt dt : R) : Np.float64 :=
  Np.exp
    (Np.add
       (Np.neg (Np.add (spec_u kappa sigma x0 dt) (spec_v kappa sigma xt dt)))
       (Np.abs (spec_z kappa sigma x0 xt dt))).

(** The transition density as the specification writes it:
    [c * exp(-(u+v) + |z|) * (v/u)^(q/2) * ive(q, z)]. *)
Definition density_formula (kappa mu sigma x0 xt dt : R) : Np.float64 :=
  Np.mul
    (Np.mul
       (Np.mul (spec_c kappa sigma dt) (scaled_exponential kappa sigma x0 xt dt))
       (Np.power
          (Np.div (spec_v kappa sigma xt dt) (spec_u kappa sigma x0 dt))
          (Np.div (spec_q kappa mu sigma) (Np.Finite 2))))
    (ive (spec_q kappa mu sigma) (spec_z kappa sigma x0 xt dt)).

(** The same product with the two exponentials taken one by one, as the
    unscaled formula [exp(-(u+v)) * I_q(z)] would have them. *)
Definition unscaled_exponentials (kappa sigma x0 xt dt : R) : Np.float64 :=
  Np.mul
    (Np.exp
       (Np.neg
          (Np.add (spec_u kappa sigma x0 dt) (spec_v kappa sigma xt dt))))
    (Np.exp (Np.abs (spec_z kappa sigma x0 xt dt))).

End Scipy.

End Cir.

(** ** ing/optm/minimizer.py *)

Module Minimizer.

(** Values stored in the options mapping. *)
Inductive pyval : Type :=
| PyInt (n : Z)
| PyFloat (r : R).

(** A Python [dict] with string keys, in insertion order. *)
Definition dict : Type := list (string * pyval).

Record Result : Type := mkResult {
  params : list R;
  value : R;
  success : bool;
  message : string
}.

Definition Result__init__ (params : list R) (value : R) (success : bool)
  (message : string) : Result :=
  {| params := params; value := value; success := success;
     message := message |}.

(** The attributes of scipy's [OptimizeResult] that the wrapper reads:
    [x], [fun], [success], [message]. *)
Record OptimizeResult : Type := mkOptimizeResult {
  res_x : list R;
  res_fun : R;
  res_success : bool;
  res_message : string
}.

(** A side of a bound; [None] stands for the infinity of the fitting sign. *)
Definition Bounds : Type := list (option R * option R).

Record ScipyMinimizer : Type := mkScipyMinimizer {
  _method : string;
  _tol : R;
  _options : dict
}.

(** Default values of the keyword arguments of [ScipyMinimizer.__init__]. *)
Definition method_default : string := "trust-constr".
Definition tol_default : R := 5e-03.

(** [options or {...}]: [None] and the empty mapping are both falsy. *)
Definition ScipyMinimizer__init__ (method : string) (tol : R)
  (options : option dict) : ScipyMinimizer :=
  {| _method := method;
     _tol := tol;
     _options :=
       match options with
       | Some ((_ :: _) as d) => d
       | _ =>
           [ ("maxiter", PyInt 500);
             ("gtol", PyFloat 1e-06);
             ("xtol", PyFloat 1e-04);
             ("verbose", PyInt 1) ]
       end |}.

Section Scipy.

(** [scipy.optimize.minimize(fun, x0, tol=, method=, bounds=, options=)]. *)
Variable scipy_minimize :
  (list R -> R) -> option (list R) -> R -> string -> option Bounds -> dict ->
  result OptimizeResult.

Definition minimize (self : ScipyMinimizer) (function : list R -> R)
  (bounds : option Bounds) (guess : option (list R)) : result Result :=
  res <- scipy_minimize function guess (_tol self) (_method self) bounds
           (_options self) ;;
  Ok (Result__init__ (res_x res) (res_fun res) (res_success res)
        (res_message res)).

End Scipy.

End Minimizer.

(** ** ing/utils/data_utils.py *)

Module DataUtils.

(** The built-in [sum]: starts from [0] and adds from the left. *)
Definition py_sum (l : list R) : R := fold_left Rplus l 0.

(** [s / n] for an integer [n]. *)
Definition truediv_int (s : R) (n : nat) : result R :=
  match n with
  | O => Raise ZeroDivisionError
  | S _ => Ok (s / INR n)
  end.

(** The generator [f(i) for i in range(n)], consumed in order. *)
Fixpoint generate (f : nat -> result R) (idx : list nat)
  : result (list R) :=
  match idx with
  | [] => Ok []
  | i :: idx' =>
      v <- f i ;;
      vs <- generate f idx' ;;
      Ok (v :: vs)
  end.

Definition mean_squared_error (x_1 x_2 : list R) : result R :=
  if negb (Nat.eqb (List.length x_1) (List.length x_2)) then Raise ValueError
  else
    let n := List.length x_1 in
    terms <- generate
               (fun i =>
                  a <- getitem x_1 i ;;
                  b <- getitem x_2 i ;;
                  Ok ((a - b) ^ 2))
               (seq 0 n) ;;
    truediv_int (py_sum terms) n.

(** [series >= level], element by element. *)
Definition geb (a b : R) : bool := if Rge_dec a b then true else false.

Definition ge_mask (series : list R) (level : R) : list bool :=
  map (fun v => geb v level) series.

(** [series[:T]] for an integer [T]: a negative [T] counts from the end. *)
Definition slice_to (series : list R) (T : Z) : list R :=
  if (0 <=? T)%Z then firstn (Z.to_nat T) series
  else firstn (List.length series - Z.to_nat (- T)) series.

(** A float64 that may be NaN. *)
Inductive float64 : Type :=
| Finite (r : R)
| NaN.

Definition count_true (mask : list bool) : nat :=
  List.length (filter (fun b => b) mask).

(** [np.mean] of a boolean sequence; the mean of nothing is NaN. *)
Definition np_mean (mask : list bool) : float64 :=
  match mask with
  | [] => NaN
  | _ :: _ => Finite (INR (count_true mask) / INR (List.length mask))
  end.

(** [np.argmax] of a boolean sequence: the position of the first occurrence
    of the largest element; [ValueError] on an empty sequence. *)
Fixpoint argmax_from (best : bool) (best_i i : nat) (mask : list bool)
  : nat :=
  match mask with
  | [] => best_i
  | b :: mask' =>
      if negb best && b then argmax_from b i (S i) mask'
      else argmax_from best best_i (S i) mask'
  end.

Definition np_argmax (mask : list bool) : result nat :=
  match mask with
  | [] => Raise ValueError
  | b :: mask' => Ok (argmax_from b 0 1 mask')
  end.

Definition conditional_expectation (data model : list R)
  (starting_point target_level : R) (T : Z) : float64 :=
  let simulated_spread := slice_to model T in
  let conditional_expectation :=
    np_mean (ge_mask simulated_spread target_level) in
  conditional_expectation.

Definition expected_time_to_target (data model : list R)
  (starting_point target_level : R) (max_periods : Z) : result nat :=
  time_to_target <- np_argmax (ge_mask model target_level) ;;
  Ok time_to_target.

(** The specification's readings. *)

(** The mean of the element-wise squared differences. *)
Definition mean_of_squared_differences (x_1 x_2 : list R) : R :=
  fold_right Rplus 0 (map (fun ab => (fst ab - snd ab) ^ 2) (combine x_1 x_2))
  / INR (List.length x_1).

(** The position of the first value at or above the level, if any. *)
Fixpoint first_at_or_above (series : list R) (level : R) : option nat :=
  match series with
  | [] => None
  | v :: series' =>
      if Rge_dec v level then Some O
      else option_map S (first_at_or_above series' level)
  end.

End DataUtils.

(** ** Reading a sequence of interactions *)

Module Traces.
Import Models.

(** The vector of the most recent assignment to [params] in a sequence of
    interactions, [current] when there is none. *)
Fixpoint last_assigned (cs : list call) (current : option (list R))
  : option (list R) :=
  match cs with
  | [] => current
  | Set_params vals :: cs' => last_assigned cs' (Some vals)
  | _ :: cs' => last_assigned cs' current
  end.

End Traces.

(** ** Concrete inputs used to exercise the statements *)

Module Samples.
Import Models.

(** A subclass whose body defines the two abstract methods and a
    parameter-dependent positivity predicate, and nothing else. *)
Definition Plain_drift : method2 := fun self x t => Ok (x * x + t).
Definition Plain_diffusion : method2 := fun self x t => Ok (3 * x).
Definition Plain__set_is_positive (params : list R) : bool :=
  match params with
  | [] => false
  | _ :: _ => true
  end.

Definition Plain : ClassBody :=
  {| def_drift := Plain_drift;
     def_diffusion := Plain_diffusion;
     def_exact_density := None;
     def_exact_step := None;
     def_drift_x := None;
     def_drift_t := None;
     def_drift_xx := None;
     def_diffusion_x := None;
     def_diffusion_xx := None;
     def__set_is_positive := Some Plain__set_is_positive |}.

Definition Plain__init__ : Model :=
  Model__init__ has_exact_density_default default_sim_method_default.

(** A Bessel routine and an optimisation routine with fixed answers. *)
Definition ive_one : Np.routine2 := fun v z => Np.Finite 1.

Definition report : Minimizer.OptimizeResult :=
  {| Minimizer.res_x := [3; -1];
     Minimizer.res_fun := 0;
     Minimizer.res_success := false;
     Minimizer.res_message := "max iterations reached" |}.

Definition routine :
  (list R -> R) -> option (list R) -> R -> string ->
  option Minimizer.Bounds -> Minimizer.dict ->
  result Minimizer.OptimizeResult :=
  fun function guess tol method bounds options => Ok report.

(** A routine that rejects its input. *)
Definition failing_routine :
  (list R -> R) -> option (list R) -> R -> string ->
  option Minimizer.Bounds -> Minimizer.dict ->
  result Minimizer.OptimizeResult :=
  fun function guess tol method bounds options => Raise ValueError.

End Samples.

(** * Properties *)

(** ** The base class *)

Section ModelFacts.
Import Models.

Variable C : ClassBody.

Lemma invoke_keeps_state (c : call) (s : Model) :
  is_set c = false -> snd (invoke C c s) = s.
Proof.
  destruct c; simpl; intros Hc; try reflexivity; discriminate.
Qed.

Lemma invoke_set_state (v : list R) (s : Model) :
  snd (invoke C (Set_params v) s) = params_setter C s v.
Proof. reflexivity. Qed.

Lemma setter_flag (s : Model) (v : list R) :
  is_positive (params_setter C s v) = _set_is_positive C v.
Proof. reflexivity. Qed.

Lemma setter_params (s : Model) (v : list R) :
  params (params_setter C s v) = Some v.
Proof. reflexivity. Qed.

Lemma setter_tracks (s : Model) (v : list R) :
  flag_tracks_params C (params_setter C s v).
Proof.
  intros w Hw. rewrite setter_params in Hw.
  injection Hw as <-. apply setter_flag.
Qed.

Lemma invoke_tracks (c : call) (s : Model) :
  flag_tracks_params C s -> flag_tracks_params C (snd (invoke C c s)).
Proof.
  intros Hs. destruct (is_set c) eqn:Hc.
  - destruct c; try discriminate. rewrite invoke_set_state.
    apply setter_tracks.
  - rewrite invoke_keeps_state by assumption. exact Hs.
Qed.

Lemma run_tracks (cs : list call) :
  forall s, flag_tracks_params C s -> flag_tracks_params C (run C cs s).
Proof.
  induction cs as [|c cs IH]; intros s Hs; simpl.
  - exact Hs.
  - apply IH, invoke_tracks, Hs.
Qed.

Lemma init_tracks (b : bool) (m : string) :
  flag_tracks_params C (Model__init__ b m).
Proof. intros w Hw. discriminate Hw. Qed.

(** Every state an object goes through, from its construction on, keeps the
    flag in step with the stored vector. *)
Lemma reachable_tracks (b : bool) (m : string) (cs : list call) :
  flag_tracks_params C (run C cs (Model__init__ b m)).
Proof. apply run_tracks, init_tracks. Qed.

Lemma run_app (cs1 cs2 : list call) (s : Model) :
  run C (cs1 ++ cs2) s = run C cs2 (run C cs1 s).
Proof.
  revert s. induction cs1 as [|c cs1 IH]; intros s; simpl.
  - reflexivity.
  - apply IH.
Qed.

End ModelFacts.

(** C3. With step [h = 1e-5], each derivative method that a class inherits
    from [Model] returns the stated finite difference: [drift_x] the centred
    difference [(drift(x+h,t) - drift(x-h,t)) / (2h)], [drift_t] the forward
    difference [(drift(x,t+h) - drift(x,t)) / h], [drift_xx] the second
    difference [(drift(x+h,t) - 2 drift(x,t) + drift(x-h,t)) / h^2], and
    [diffusion_x], [diffusion_xx] the same spatial formulas on
    [diffusion]. *)
Theorem numerical_derivatives_formulas
  (C : Models.ClassBody) (self : Models.Model) (x t : R) :
  (Models.def_drift_x C = None ->
   forall a b,
     Models.drift C self (x + 1e-5) t = Ok a ->
     Models.drift C self (x - 1e-5) t = Ok b ->
     Models.drift_x C self x t = Ok ((a - b) / (2 * 1e-5)))
  /\ (Models.def_drift_t C = None ->
      forall a b,
        Models.drift C self x (t + 1e-5) = Ok a ->
        Models.drift C self x t = Ok b ->
        Models.drift_t C self x t = Ok ((a - b) / 1e-5))
  /\ (Models.def_drift_xx C = None ->
      forall a b c,
        Models.drift C self (x + 1e-5) t = Ok a ->
        Models.drift C self x t = Ok b ->
        Models.drift C self (x - 1e-5) t = Ok c ->
        Models.drift_xx C self x t = Ok ((a - 2 * b + c) / 1e-5 ^ 2))
  /\ (Models.def_diffusion_x C = None ->
      forall a b,
        Models.diffusion C self (x + 1e-5) t = Ok a ->
        Models.diffusion C self (x - 1e-5) t = Ok b ->
        Models.diffusion_x C self x t = Ok ((a - b) / (2 * 1e-5)))
  /\ (Models.def_diffusion_xx C = None ->
      forall a b c,
        Models.diffusion C self (x + 1e-5) t = Ok a ->
        Models.diffusion C self x t = Ok b ->
        Models.diffusion C self (x - 1e-5) t = Ok c ->
        Models.diffusion_xx C self x t = Ok ((a - 2 * b + c) / 1e-5 ^ 2)).
Proof.
  unfold Models.drift_x, Models.drift_t, Models.drift_xx,
    Models.diffusion_x, Models.diffusion_xx.
  repeat split; intros Hinherit; rewrite Hinherit; cbn [Models.resolve];
    unfold Models.Model_drift_x, Models.Model_drift_t,
      Models.Model_drift_xx, Models.Model_diffusion_x,
      Models.Model_diffusion_xx.
  - intros a b Ha Hb. rewrite Ha, Hb. reflexivity.
  - intros a b Ha Hb. rewrite Ha, Hb. reflexivity.
  - intros a b c Ha Hb Hc. rewrite Ha, Hb, Hc. cbn [bind].
    do 2 f_equal. ring.
  - intros a b Ha Hb. rewrite Ha, Hb. reflexivity.
  - intros a b c Ha Hb Hc. rewrite Ha, Hb, Hc. cbn [bind].
    do 2 f_equal. ring.
Qed.

Lemma numerical_derivatives_formulas_witness :
  Models.drift_x (Cir.CIR Samples.ive_one)
    (Models.params_setter (Cir.CIR Samples.ive_one) Cir.CIR__init__
       [5; 0.03; 0.1]) 2 1
  = Ok ((5 * (0.03 - (2 + 1e-5)) - 5 * (0.03 - (2 - 1e-5))) / (2 * 1e-5))
  /\ Models.drift_t Samples.Plain Samples.Plain__init__ 2 1
     = Ok ((2 * 2 + (1 + 1e-5) - (2 * 2 + 1)) / 1e-5)
  /\ Models.drift_xx Samples.Plain Samples.Plain__init__ 2 1
     = Ok (((2 + 1e-5) * (2 + 1e-5) + 1 - 2 * (2 * 2 + 1)
            + ((2 - 1e-5) * (2 - 1e-5) + 1)) / 1e-5 ^ 2)
  /\ Models.diffusion_x Samples.Plain Samples.Plain__init__ 2 1
     = Ok ((3 * (2 + 1e-5) - 3 * (2 - 1e-5)) / (2 * 1e-5))
  /\ Models.diffusion_xx Samples.Plain Samples.Plain__init__ 2 1
     = Ok ((3 * (2 + 1e-5) - 2 * (3 * 2) + 3 * (2 - 1e-5)) / 1e-5 ^ 2).
Proof.
  destruct (numerical_derivatives_formulas (Cir.CIR Samples.ive_one)
              (Models.params_setter (Cir.CIR Samples.ive_one)
                 Cir.CIR__init__ [5; 0.03; 0.1]) 2 1)
    as (Hcir & _).
  destruct (numerical_derivatives_formulas Samples.Plain
              Samples.Plain__init__ 2 1)
    as (_ & Ht & Hxx & Hdx & Hdxx).
  split; [|split; [|split; [|split]]].
  - apply Hcir; reflexivity.
  - apply Ht; reflexivity.
  - apply Hxx; reflexivity.
  - apply Hdx; reflexivity.
  - apply Hdxx; reflexivity.
Defined.

(** C4. Assigning [params] calls the class's [_set_is_positive] on the new
    vector and stores its answer: right after the assignment [is_positive]
    is the predicate of [v] and [params] is [v]; no other interaction
    changes the flag; and after any further interactions the flag is the
    predicate of the vector stored at that moment, never of an older one. *)
Theorem params_setter_recomputes_flag
  (C : Models.ClassBody) (self : Models.Model) (v : list R)
  (cs : list Models.call) :
  Models.invoke C (Models.Set_params v) self
  = (Ok Models.VNone, Models.params_setter C self v)
  /\ Models.is_positive (Models.params_setter C self v)
     = Models._set_is_positive C v
  /\ Models.params (Models.params_setter C self v) = Some v
  /\ (forall c s,
        Models.is_positive (snd (Models.invoke C c s))
        <> Models.is_positive s ->
        exists w, c = Models.Set_params w)
  /\ (forall w,
        Models.params (Models.run C cs (Models.params_setter C self v))
        = Some w ->
        Models.is_positive (Models.run C cs (Models.params_setter C self v))
        = Models._set_is_positive C w)
  /\ (forallb (fun c => negb (Models.is_set c)) cs = true ->
      Models.is_positive (Models.run C cs (Models.params_setter C self v))
      = Models._set_is_positive C v).
Proof.
  split; [reflexivity|]. split; [reflexivity|]. split; [reflexivity|].
  split; [|split].
  - intros c s Hne. destruct (Models.is_set c) eqn:Hc.
    + destruct c; try discriminate. eauto.
    + rewrite invoke_keeps_state in Hne by assumption. now elim Hne.
  - apply run_tracks, setter_tracks.
  - revert self. induction cs as [|c cs IH]; intros self Hall.
    + reflexivity.
    + simpl in Hall. apply andb_prop in Hall as [Hc Hcs].
      apply negb_true_iff in Hc. simpl.
      rewrite invoke_keeps_state by assumption. apply IH, Hcs.
Qed.

Lemma params_setter_recomputes_flag_witness :
  Models.is_positive
    (Models.run Samples.Plain
       [Models.Get_is_positive; Models.Set_params []; Models.Call_drift 1 0]
       (Models.params_setter Samples.Plain Samples.Plain__init__ [2; 1]))
  = false
  /\ Models.is_positive
       (Models.run Samples.Plain
          [Models.Get_is_positive; Models.Call_drift 1 0]
          (Models.params_setter Samples.Plain Samples.Plain__init__ [2; 1]))
     = true.
Proof.
  split.
  - destruct (params_setter_recomputes_flag Samples.Plain
                Samples.Plain__init__ [2; 1]
                [Models.Get_is_positive; Models.Set_params [];
                 Models.Call_drift 1 0])
      as (_ & _ & _ & _ & H & _).
    apply (H []). reflexivity.
  - destruct (params_setter_recomputes_flag Samples.Plain
                Samples.Plain__init__ [2; 1]
                [Models.Get_is_positive; Models.Call_drift 1 0])
      as (_ & _ & _ & _ & _ & H).
    apply H. reflexivity.
Defined.

(** C6. For a class that inherits [exact_density] from [Model], whatever
    the capability flag of the object, the call raises
    [NotImplementedError]; likewise [exact_step] for a class that inherits
    it, which is the case of [CIR]; the object is left as it was. *)
Theorem inherited_exact_methods_raise
  (C : Models.ClassBody) (self : Models.Model) :
  (Models.def_exact_density C = None ->
   forall x0 xt t0 dt,
     Models.invoke C (Models.Call_exact_density x0 xt t0 dt) self
     = (Raise NotImplementedError, self))
  /\ (Models.def_exact_step C = None ->
      forall t dt x dZ,
        Models.invoke C (Models.Call_exact_step t dt x dZ) self
        = (Raise NotImplementedError, self))
  /\ (forall ive t dt x dZ,
        Models.invoke (Cir.CIR ive) (Models.Call_exact_step t dt x dZ) self
        = (Raise NotImplementedError, self)).
Proof.
  split; [|split].
  - intros H x0 xt t0 dt. simpl. unfold Models.exact_density.
    rewrite H. reflexivity.
  - intros H t dt x dZ. simpl. unfold Models.exact_step.
    rewrite H. reflexivity.
  - reflexivity.
Qed.

Lemma inherited_exact_methods_raise_witness :
  Models.has_exact_density Samples.Plain__init__ = false
  /\ Models.invoke Samples.Plain (Models.Call_exact_density 1 2 0 1)
       Samples.Plain__init__
     = (Raise NotImplementedError, Samples.Plain__init__)
  /\ Models.invoke Samples.Plain (Models.Call_exact_step 0 1 1 0)
       Samples.Plain__init__
     = (Raise NotImplementedError, Samples.Plain__init__).
Proof.
  destruct (inherited_exact_methods_raise Samples.Plain
              Samples.Plain__init__) as (Hd & Hs & _).
  split; [reflexivity|]. split.
  - apply Hd. reflexivity.
  - apply Hs. reflexivity.
Defined.

(** ** The CIR model *)

(** C5 as stated fails: an instance that has just been constructed, with
    no vector assigned yet, answers [False]. *)
Lemma CIR_fresh_instance_not_positive :
  Models.is_positive Cir.CIR__init__ = false
  /\ ~ (forall (ive : Np.routine2) (cs : list Models.call),
          Models.is_positive (Models.run (Cir.CIR ive) cs Cir.CIR__init__)
          = true).
Proof.
  split; [reflexivity|].
  intros H. specialize (H Samples.ive_one []). discriminate H.
Qed.

(** C5, amended. The positivity predicate of [CIR] answers [True] for
    every vector (also one with [kappa = 0]), so once [params] has been
    assigned, [is_positive] is [True] and stays so under every later
    interaction; in particular for an instance followed from its
    construction through an assignment. *)
Theorem CIR_is_positive_once_params_set
  (ive : Np.routine2) (self : Models.Model) (v : list R)
  (cs0 cs : list Models.call) :
  Models._set_is_positive (Cir.CIR ive) v = true
  /\ Models.is_positive (Models.params_setter (Cir.CIR ive) self v) = true
  /\ Models.is_positive
       (Models.run (Cir.CIR ive) cs
          (Models.params_setter (Cir.CIR ive) self v)) = true
  /\ Models.is_positive
       (Models.run (Cir.CIR ive) (cs0 ++ Models.Set_params v :: cs)
          Cir.CIR__init__) = true.
Proof.
  assert (Hrun : forall s,
             Models.is_positive s = true ->
             Models.is_positive (Models.run (Cir.CIR ive) cs s) = true).
  { induction cs as [|c cs IH]; intros s Hs; simpl.
    - exact Hs.
    - apply IH. destruct (Models.is_set c) eqn:Hc.
      + destruct c; try discriminate. reflexivity.
      + rewrite invoke_keeps_state by assumption. exact Hs. }
  split; [reflexivity|]. split; [reflexivity|]. split.
  - apply Hrun. reflexivity.
  - rewrite run_app. simpl. apply Hrun. reflexivity.
Qed.

(** ** Facts about numpy's arithmetic *)

Lemma pow2_40 : 2 ^ 40 = 1099511627776.
Proof. lra. Qed.

Lemma overflow_bound_large : 1e12 < Np.overflow_bound.
Proof.
  unfold Np.overflow_bound.
  apply Rlt_le_trans with (2 ^ 40); [rewrite pow2_40; lra|].
  apply Rle_pow; [lra | lia].
Qed.

Lemma underflow_bound_pos : 0 < Np.underflow_bound.
Proof.
  unfold Np.underflow_bound. apply Rinv_0_lt_compat, pow_lt. lra.
Qed.

Lemma underflow_bound_small : Np.underflow_bound < 1e-12.
Proof.
  unfold Np.underflow_bound.
  apply Rle_lt_trans with (/ 2 ^ 40).
  - apply Rinv_le_contravar; [apply pow_lt; lra|].
    apply Rle_pow; [lra | lia].
  - rewrite pow2_40. lra.
Qed.

Lemma in_range_decimal (r : R) :
  1e-12 <= Rabs r <= 1e12 -> Np.in_range r.
Proof.
  intros [Hlo Hhi]. unfold Np.in_range.
  pose proof overflow_bound_large. pose proof underflow_bound_small. lra.
Qed.

Lemma in_range_pos (r : R) : 1e-12 <= r <= 1e12 -> Np.in_range r.
Proof.
  intros H. apply in_range_decimal. rewrite Rabs_pos_eq; lra.
Qed.

Lemma in_range_neg (r : R) : -1e12 <= r <= -1e-12 -> Np.in_range r.
Proof.
  intros H. apply in_range_decimal. rewrite Rabs_left; lra.
Qed.

Lemma in_range_nonzero (r : R) : Np.in_range r -> r <> 0.
Proof.
  intros [Hlo _] ->. rewrite Rabs_R0 in Hlo.
  pose proof underflow_bound_pos. lra.
Qed.

Lemma round_in_range (r : R) : Np.in_range r -> Np.round r = Np.Finite r.
Proof.
  intros [Hlo Hhi]. unfold Np.round.
  destruct (Rle_dec Np.overflow_bound (Rabs r)); [lra|].
  destruct (Rle_dec (Rabs r) Np.underflow_bound); [lra|]. reflexivity.
Qed.

Lemma round_zero : Np.round 0 = Np.Finite 0.
Proof.
  unfold Np.round. rewrite Rabs_R0.
  pose proof underflow_bound_pos as Hu.
  assert (Ho : 0 < Np.overflow_bound)
    by (pose proof overflow_bound_large; lra).
  destruct (Rle_dec Np.overflow_bound 0); [lra|].
  destruct (Rle_dec 0 Np.underflow_bound); [|lra].
  unfold Np.negative. destruct (Rlt_dec 0 0); [lra | reflexivity].
Qed.

Lemma round_overflow (r : R) :
  Np.overflow_bound <= r -> Np.round r = Np.PInf.
Proof.
  intros Hr. unfold Np.round.
  assert (Hpos : 0 < r) by (pose proof overflow_bound_large; lra).
  rewrite Rabs_pos_eq by lra.
  destruct (Rle_dec Np.overflow_bound r); [|lra].
  unfold Np.negative. destruct (Rlt_dec r 0); [lra | reflexivity].
Qed.

Lemma round_underflow (r : R) :
  0 < r <= Np.underflow_bound -> Np.round r = Np.Finite 0.
Proof.
  intros [Hpos Hr]. unfold Np.round. rewrite Rabs_pos_eq by lra.
  pose proof overflow_bound_large as Ho.
  pose proof underflow_bound_small as Hu.
  destruct (Rle_dec Np.overflow_bound r); [lra|].
  destruct (Rle_dec r Np.underflow_bound); [|lra].
  unfold Np.negative. destruct (Rlt_dec r 0); [lra | reflexivity].
Qed.

Lemma classify_num (r : R) :
  r <> 0 -> Np.classify (Np.Finite r) = Np.KNum r.
Proof.
  intros Hr. unfold Np.classify.
  destruct (Req_dec_T r 0); [contradiction | reflexivity].
Qed.

Lemma classify_zero : Np.classify (Np.Finite 0) = Np.KZero false.
Proof.
  unfold Np.classify. destruct (Req_dec_T 0 0); [reflexivity | now elim n].
Qed.

Lemma neg_num (x : R) : x <> 0 -> Np.neg (Np.Finite x) = Np.Finite (- x).
Proof. intros Hx. unfold Np.neg. now rewrite classify_num. Qed.

Lemma abs_num (x : R) : x <> 0 -> Np.abs (Np.Finite x) = Np.Finite (Rabs x).
Proof. intros Hx. unfold Np.abs. now rewrite classify_num. Qed.

Lemma add_num (x y : R) :
  x <> 0 -> y <> 0 -> Np.in_range (x + y) ->
  Np.add (Np.Finite x) (Np.Finite y) = Np.Finite (x + y).
Proof.
  intros Hx Hy Hr. unfold Np.add. rewrite !classify_num by assumption.
  now apply round_in_range.
Qed.

Lemma sub_num (x y : R) :
  x <> 0 -> y <> 0 -> Np.in_range (x - y) ->
  Np.sub (Np.Finite x) (Np.Finite y) = Np.Finite (x - y).
Proof.
  intros Hx Hy Hr. unfold Np.sub. rewrite neg_num by assumption.
  apply add_num; [assumption | lra | exact Hr].
Qed.

Lemma mul_num (x y : R) :
  x <> 0 -> y <> 0 -> Np.in_range (x * y) ->
  Np.mul (Np.Finite x) (Np.Finite y) = Np.Finite (x * y).
Proof.
  intros Hx Hy Hr. unfold Np.mul. rewrite !classify_num by assumption.
  now apply round_in_range.
Qed.

Lemma div_num (x y : R) :
  x <> 0 -> y <> 0 -> Np.in_range (x / y) ->
  Np.div (Np.Finite x) (Np.Finite y) = Np.Finite (x / y).
Proof.
  intros Hx Hy Hr. unfold Np.div. rewrite !classify_num by assumption.
  now apply round_in_range.
Qed.

Lemma exp_num (x : R) :
  x <> 0 -> Np.exp (Np.Finite x) = Np.round (exp x).
Proof. intros Hx. unfold Np.exp. now rewrite classify_num. Qed.

Lemma sqrt_num (x : R) :
  0 < x -> Np.in_range (sqrt x) ->
  Np.sqrt (Np.Finite x) = Np.Finite (sqrt x).
Proof.
  intros Hx Hr. unfold Np.sqrt. rewrite classify_num by lra.
  destruct (Rlt_dec x 0); [lra|]. now apply round_in_range.
Qed.

Lemma power_pos (x y : R) :
  0 < x -> y <> 0 ->
  Np.power (Np.Finite x) (Np.Finite y) = Np.round (Rpower x y).
Proof.
  intros Hx Hy. unfold Np.power. rewrite !classify_num by lra.
  destruct (Rlt_dec 0 x); [reflexivity | lra].
Qed.

Lemma power_square (x : R) :
  0 < x -> Np.in_range (x * x) ->
  Np.power (Np.Finite x) (Np.Finite 2) = Np.Finite (x * x).
Proof.
  intros Hx Hr. rewrite power_pos by lra.
  replace (Rpower x 2) with (x * x).
  - now apply round_in_range.
  - replace 2 with (INR 2) at 1 by (simpl; lra).
    rewrite Rpower_pow by assumption. ring.
Qed.

Lemma mul_zero_inf :
  Np.mul (Np.Finite 0) Np.PInf = Np.NaN.
Proof. unfold Np.mul. rewrite classify_zero. reflexivity. Qed.

Lemma mul_num_zero (x : R) :
  0 < x -> Np.mul (Np.Finite x) (Np.Finite 0) = Np.Finite 0.
Proof.
  intros Hx. unfold Np.mul. rewrite classify_num by lra.
  rewrite classify_zero. unfold Np.negative.
  destruct (Rlt_dec x 0); [lra | reflexivity].
Qed.

Lemma mul_nan_l (b : Np.float64) : Np.mul Np.NaN b = Np.NaN.
Proof. reflexivity. Qed.

(** ** Powers of two and the exponential *)

Lemma exp_mult_nat (n : nat) (x : R) : exp (INR n * x) = exp x ^ n.
Proof.
  induction n as [|n IH].
  - simpl. rewrite Rmult_0_l. apply exp_0.
  - rewrite S_INR, Rmult_plus_distr_r, Rmult_1_l, exp_plus, IH. simpl. ring.
Qed.

Lemma exp_three_quarters : 2 <= exp 0.75.
Proof.
  replace 0.75 with (INR 8 * 0.09375) by (simpl; lra).
  rewrite exp_mult_nat.
  assert (H : 1.09375 <= exp 0.09375).
  { left. replace 1.09375 with (1 + 0.09375) by lra.
    apply exp_ineq1. lra. }
  apply Rle_trans with (1.09375 ^ 8); [lra|].
  apply pow_incr. lra.
Qed.

Lemma exp_half : exp 0.5 <= 2.
Proof.
  replace 0.5 with (- - 0.5) by lra. rewrite exp_Ropp.
  assert (H : 0.5 < exp (- 0.5)).
  { replace 0.5 with (1 + - 0.5) at 1 by lra. apply exp_ineq1. lra. }
  replace 2 with (/ 0.5) by lra.
  apply Rinv_le_contravar; lra.
Qed.

Lemma exp_ge_pow2 (n : nat) (x : R) : INR n * 0.75 <= x -> 2 ^ n <= exp x.
Proof.
  intros Hx. apply Rle_trans with (exp (INR n * 0.75)).
  - rewrite exp_mult_nat. apply pow_incr.
    pose proof exp_three_quarters. lra.
  - destruct Hx as [Hx| ->]; [left; now apply exp_increasing | lra].
Qed.

Lemma exp_le_pow2 (n : nat) (x : R) : x <= INR n * 0.5 -> exp x <= 2 ^ n.
Proof.
  intros Hx. apply Rle_trans with (exp (INR n * 0.5)).
  - destruct Hx as [Hx| ->]; [left; now apply exp_increasing | lra].
  - rewrite exp_mult_nat. apply pow_incr. split.
    + left. apply exp_pos.
    + apply exp_half.
Qed.

Lemma exp_overflows (x : R) : 768 <= x -> Np.round (exp x) = Np.PInf.
Proof.
  intros Hx. apply round_overflow. unfold Np.overflow_bound.
  apply exp_ge_pow2. rewrite INR_IZR_INZ. simpl Z.of_nat. lra.
Qed.

Lemma exp_underflows (x : R) : x <= - 1075 -> Np.round (exp x) = Np.Finite 0.
Proof.
  intros Hx. apply round_underflow. split; [apply exp_pos|].
  unfold Np.underflow_bound.
  replace x with (- - x) by lra. rewrite exp_Ropp.
  apply Rinv_le_contravar; [apply pow_lt; lra|].
  apply exp_ge_pow2. rewrite INR_IZR_INZ. simpl Z.of_nat. lra.
Qed.

Lemma exp_in_range (x : R) :
  - 537 <= x <= 0 -> Np.round (exp x) = Np.Finite (exp x) /\ 0 < exp x <= 1.
Proof.
  intros [Hlo Hhi].
  assert (Hle1 : exp x <= 1).
  { rewrite <- exp_0. destruct Hhi as [Hhi| ->];
      [left; now apply exp_increasing | lra]. }
  pose proof (exp_pos x) as Hpos.
  split; [|lra]. apply round_in_range. unfold Np.in_range.
  rewrite Rabs_pos_eq by lra. split.
  - unfold Np.underflow_bound.
    apply Rlt_le_trans with (/ 2 ^ 1074).
    + apply Rinv_lt_contravar.
      * apply Rmult_lt_0_compat; apply pow_lt; lra.
      * apply Rlt_pow; [lra | lia].
    + replace x with (- - x) by lra. rewrite exp_Ropp.
      apply Rinv_le_contravar; [apply exp_pos|].
      apply exp_le_pow2. rewrite INR_IZR_INZ. simpl Z.of_nat. lra.
  - pose proof overflow_bound_large. lra.
Qed.

(** ** The quantities of the density while they stay in range *)

Lemma density_prefix_in_range (kappa sigma x0 xt dt : R) :
  0 < kappa -> 0 < sigma -> 0 < x0 -> 0 < xt -> 0 < dt ->
  let E := exp (- kappa * dt) in
  let c := 2 * kappa / (sigma * sigma * (1 - E)) in
  let u := c * x0 * E in
  let v := c * xt in
  let z := 2 * sqrt (u * v) in
  Np.in_range (- kappa * dt) -> Np.in_range E ->
  Np.in_range (sigma * sigma) -> Np.in_range (1 - E) ->
  Np.in_range (sigma * sigma * (1 - E)) -> Np.in_range (2 * kappa) ->
  Np.in_range c -> Np.in_range (c * x0) -> Np.in_range u ->
  Np.in_range v -> Np.in_range (u * v) -> Np.in_range (sqrt (u * v)) ->
  Np.in_range z ->
  Cir.spec_et kappa dt = Np.Finite E
  /\ Cir.spec_c kappa sigma dt = Np.Finite c
  /\ Cir.spec_u kappa sigma x0 dt = Np.Finite u
  /\ Cir.spec_v kappa sigma xt dt = Np.Finite v
  /\ Cir.spec_z kappa sigma x0 xt dt = Np.Finite z.
Proof.
  intros Hk Hs Hx0 Hxt Hdt E c u v z
    Rkd RE Rs2 Rd Rden R2k Rc Rcx Ru Rv Ruv Rsq Rz.
  assert (Het : Cir.spec_et kappa dt = Np.Finite E).
  { unfold Cir.spec_et. rewrite neg_num by lra.
    rewrite mul_num by (try lra; exact Rkd).
    rewrite exp_num by (now apply in_range_nonzero).
    now apply round_in_range. }
  assert (Hc : Cir.spec_c kappa sigma dt = Np.Finite c).
  { unfold Cir.spec_c. rewrite Het.
    rewrite power_square by assumption.
    rewrite sub_num by (try lra; try (now apply in_range_nonzero); exact Rd).
    rewrite (mul_num (sigma * sigma)) by
      (try (now apply in_range_nonzero); exact Rden).
    rewrite mul_num by (try lra; exact R2k).
    rewrite div_num by (try (now apply in_range_nonzero); exact Rc).
    reflexivity. }
  assert (Hu : Cir.spec_u kappa sigma x0 dt = Np.Finite u).
  { unfold Cir.spec_u. rewrite Hc, Het.
    rewrite mul_num by (try lra; try (now apply in_range_nonzero); exact Rcx).
    rewrite mul_num by (try (now apply in_range_nonzero); exact Ru).
    reflexivity. }
  assert (Hv : Cir.spec_v kappa sigma xt dt = Np.Finite v).
  { unfold Cir.spec_v. rewrite Hc.
    rewrite mul_num by (try lra; try (now apply in_range_nonzero); exact Rv).
    reflexivity. }
  repeat split; try assumption.
  unfold Cir.spec_z. rewrite Hu, Hv.
  rewrite mul_num by (try (now apply in_range_nonzero); exact Ruv).
  assert (Huv : 0 < u * v).
  { assert (0 <= u * v).
    { destruct (Rle_lt_dec 0 (u * v)) as [H|H]; [exact H|].
      exfalso. apply (in_range_nonzero _ Rsq).
      apply sqrt_neg_0. lra. }
    pose proof (in_range_nonzero _ Ruv). lra. }
  rewrite sqrt_num by assumption.
  rewrite mul_num by (try lra; try (now apply in_range_nonzero); exact Rz).
  reflexivity.
Qed.

Lemma scaled_exponential_in_range (kappa sigma x0 xt dt u v z : R) :
  Cir.spec_u kappa sigma x0 dt = Np.Finite u ->
  Cir.spec_v kappa sigma xt dt = Np.Finite v ->
  Cir.spec_z kappa sigma x0 xt dt = Np.Finite z ->
  0 < u -> 0 < v -> 0 < z ->
  Np.in_range (u + v) -> Np.in_range (- (u + v) + z) ->
  Cir.scaled_exponential kappa sigma x0 xt dt
  = Np.round (exp (- (u + v) + z))
  /\ Cir.unscaled_exponentials kappa sigma x0 xt dt
     = Np.mul (Np.round (exp (- (u + v)))) (Np.round (exp z)).
Proof.
  intros Hu Hv Hz Upos Vpos Zpos Ruv RA.
  unfold Cir.scaled_exponential, Cir.unscaled_exponentials.
  rewrite Hu, Hv, Hz.
  rewrite add_num by (try lra; exact Ruv).
  rewrite neg_num by lra.
  rewrite abs_num by lra. rewrite (Rabs_pos_eq z) by lra.
  rewrite add_num by (try lra; exact RA).
  rewrite !exp_num by (try lra; now apply in_range_nonzero).
  split; reflexivity.
Qed.

(** ** Interval bounds on real expressions *)

Lemma div_bounds (a y lo hi : R) :
  0 < lo -> lo <= y <= hi -> 0 <= a -> a / hi <= a / y <= a / lo.
Proof.
  intros Hlo [Hy1 Hy2] Ha. unfold Rdiv. split.
  - apply Rmult_le_compat_l; [exact Ha|].
    apply Rinv_le_contravar; lra.
  - apply Rmult_le_compat_l; [exact Ha|].
    apply Rinv_le_contravar; lra.
Qed.

Lemma mul_bounds (a b alo ahi blo bhi : R) :
  0 <= alo -> 0 <= blo -> alo <= a <= ahi -> blo <= b <= bhi ->
  alo * blo <= a * b <= ahi * bhi.
Proof.
  intros Ha Hb [Ha1 Ha2] [Hb1 Hb2]. split.
  - apply Rmult_le_compat; lra.
  - apply Rmult_le_compat; lra.
Qed.

Lemma sqrt_bounds (x lo hi : R) :
  0 <= lo -> 0 <= hi -> lo * lo <= x <= hi * hi -> lo <= sqrt x <= hi.
Proof.
  intros Hlo Hhi [Hx1 Hx2].
  assert (Hll : 0 <= lo * lo) by (apply Rmult_le_pos; lra).
  split.
  - rewrite <- (sqrt_square lo Hlo). apply sqrt_le_1; lra.
  - rewrite <- (sqrt_square hi Hhi). apply sqrt_le_1; nra.
Qed.

Lemma example_et_bounds : 0.95 < exp (Ropp 5 * 0.01) /\ exp (Ropp 5 * 0.01) * 1.05 < 1.
Proof.
  split.
  - replace 0.95 with (1 + Ropp 5 * 0.01) by lra. apply exp_ineq1. lra.
  - replace (Ropp 5 * 0.01) with (Ropp 0.05) by lra. rewrite exp_Ropp.
    assert (H : 1.05 < exp 0.05).
    { replace 1.05 with (1 + 0.05) by lra. apply exp_ineq1. lra. }
    assert (H' : / exp 0.05 < / 1.05).
    { apply Rinv_lt_contravar; [|exact H].
      apply Rmult_lt_0_compat; lra. }
    lra.
Qed.

(** The quantities of the density at [kappa = 5], [x0 = 0.01], [xt = 0.05],
    [dt = 0.01], for [sigma = 0.1] ([m = 1]) and [sigma = 0.01]
    ([m = 100]). *)
Lemma example_prefix (sigma m : R) :
  (sigma = 0.1 /\ m = 1) \/ (sigma = 0.01 /\ m = 100) ->
  exists E c u v z,
    Cir.spec_et 5 0.01 = Np.Finite E
    /\ Cir.spec_c 5 sigma 0.01 = Np.Finite c
    /\ Cir.spec_u 5 sigma 0.01 0.01 = Np.Finite u
    /\ Cir.spec_v 5 sigma 0.05 0.01 = Np.Finite v
    /\ Cir.spec_z 5 sigma 0.01 0.05 0.01 = Np.Finite z
    /\ 20000 * m <= c <= 21000 * m
    /\ 190 * m <= u <= 201 * m
    /\ 1000 * m <= v <= 1050 * m
    /\ 870 * m <= z <= 920 * m.
Proof.
  intros Hs.
  destruct example_et_bounds as [HE1 HE2].
  set (E := exp (Ropp 5 * 0.01)) in *.
  set (c := 2 * 5 / (sigma * sigma * (1 - E))).
  set (u := c * 0.01 * E).
  set (v := c * 0.05).
  set (z := 2 * sqrt (u * v)).
  assert (Hm : 1 <= m <= 100) by (destruct Hs as [[_ ->]|[_ ->]]; lra).
  assert (Hsig : 0 < sigma) by (destruct Hs as [[-> _]|[-> _]]; lra).
  assert (Hs2 : sigma * sigma * m = 0.01)
    by (destruct Hs as [[-> ->]|[-> ->]]; lra).
  assert (Hc : 20000 * m <= c <= 21000 * m).
  { unfold c.
    replace (2 * 5 / (sigma * sigma * (1 - E)))
      with (1000 * m / (1 - E)).
    - pose proof (div_bounds (1000 * m) (1 - E) (1 - / 1.05) 0.05) as H.
      lapply H; [clear H; intros H | lra].
      lapply H; [clear H; intros H | lra].
      lapply H; [clear H; intros H | lra].
      split; [|apply Rle_trans with (1000 * m / (1 - / 1.05))];
        try tauto; unfold Rdiv in *; lra.
    - replace (1000 * m) with (2 * 5 / (sigma * sigma))
        by (apply Rmult_eq_reg_r with (sigma * sigma * m);
            [field_simplify; nra | nra] ).
      field. split; nra. }
  assert (Hu : 190 * m <= u <= 201 * m).
  { unfold u.
    pose proof (mul_bounds (c * 0.01) E (200 * m) (210 * m) 0.95 (/ 1.05))
      as H.
    lapply H; [clear H; intros H | lra].
    lapply H; [clear H; intros H | lra].
    lapply H; [clear H; intros H | lra].
    lapply H; [clear H; intros H | lra]. lra. }
  assert (Hv : 1000 * m <= v <= 1050 * m) by (unfold v; lra).
  assert (Huv : 190000 * (m * m) <= u * v <= 211050 * (m * m)).
  { pose proof (mul_bounds u v (190 * m) (201 * m) (1000 * m) (1050 * m))
      as H.
    lapply H; [clear H; intros H | lra].
    lapply H; [clear H; intros H | lra].
    lapply H; [clear H; intros H | lra].
    lapply H; [clear H; intros H | lra]. lra. }
  assert (Hsq : 435 * m <= sqrt (u * v) <= 460 * m).
  { apply sqrt_bounds; first [lra | nra]. }
  assert (Hz : 870 * m <= z <= 920 * m) by (unfold z; lra).
  assert (Hmm : 1 <= m * m <= 10000) by nra.
  assert (Rs2 : 0.0001 <= sigma * sigma <= 0.01) by nra.
  assert (Rden : 0.000001 <= sigma * sigma * (1 - E) <= 0.001) by nra.
  exists E, c, u, v, z.
  destruct (density_prefix_in_range 5 sigma 0.01 0.05 0.01)
    as (H1 & H2 & H3 & H4 & H5);
    [lra | lra | lra | lra | lra
    | apply in_range_neg; lra
    | apply in_range_pos; fold E; lra
    | apply in_range_pos; lra
    | apply in_range_pos; fold E; lra
    | apply in_range_pos; fold E; lra
    | apply in_range_pos; lra
    | apply in_range_pos; fold E c; lra
    | apply in_range_pos; fold E c; lra
    | apply in_range_pos; fold E c u; lra
    | apply in_range_pos; fold E c v; lra
    | apply in_range_pos; fold E c u v; lra
    | apply in_range_pos; fold E c u v; lra
    | apply in_range_pos; fold E c u v z; lra
    |].
  repeat split; try assumption; lra.
Qed.

Lemma CIR_exact_density_unfold
  (ive : Np.routine2) (self : Models.Model)
  (kappa mu sigma x0 xt t0 dt : R) :
  Models.params self = Some [kappa; mu; sigma] ->
  Models.exact_density (Cir.CIR ive) self x0 xt t0 dt
  = Ok (Cir.density_formula ive kappa mu sigma x0 xt dt).
Proof.
  unfold Models.params. intros Hp. unfold Models.exact_density.
  cbn [Cir.CIR Models.def_exact_density Models.resolve].
  unfold Cir.CIR_exact_density. rewrite Hp. reflexivity.
Qed.

Lemma rescaling_at_example :
  exists e,
    Cir.scaled_exponential 5 0.1 0.01 0.05 0.01 = Np.Finite e
    /\ 0 < e <= 1
    /\ Cir.unscaled_exponentials 5 0.1 0.01 0.05 0.01 = Np.NaN.
Proof.
  destruct (example_prefix 0.1 1) as
    (E & c & u & v & z & _ & _ & Hu & Hv & Hz & _ & Bu & Bv & Bz);
    [left; split; reflexivity|].
  destruct (scaled_exponential_in_range 5 0.1 0.01 0.05 0.01 u v z)
    as [Hs Hun]; try assumption; try lra;
    try (apply in_range_pos; lra); try (apply in_range_neg; lra).
  destruct (exp_in_range (- (u + v) + z)) as [Hr He]; [lra|].
  exists (exp (- (u + v) + z)). rewrite Hs, Hun. split; [exact Hr|].
  split; [exact He|].
  rewrite exp_underflows by lra. rewrite exp_overflows by lra.
  apply mul_zero_inf.
Qed.

Lemma power_overflows (r y : R) :
  4 <= r -> 512 <= y -> Np.power (Np.Finite r) (Np.Finite y) = Np.PInf.
Proof.
  intros Hr Hy. rewrite power_pos by lra. apply round_overflow.
  unfold Np.overflow_bound.
  apply Rle_trans with (Rpower 4 512).
  - replace 512 with (INR 512) by (rewrite INR_IZR_INZ; reflexivity).
    rewrite Rpower_pow by lra.
    replace 4 with (2 ^ 2) by lra. rewrite <- pow_mult.
    apply Rle_pow; [lra | apply Nat.eq_le_incl; reflexivity].
  - apply Rle_trans with (Rpower 4 y).
    + apply Rle_Rpower; lra.
    + apply Rle_Rpower_l; lra.
Qed.

Lemma example_q : Cir.spec_q 5 0.03 0.01 = Np.Finite 2999.
Proof.
  unfold Cir.spec_q.
  rewrite (mul_num 5 0.03) by (try lra; apply in_range_pos; lra).
  rewrite mul_num by (try lra; apply in_range_pos; lra).
  rewrite power_square by (try lra; apply in_range_pos; lra).
  rewrite div_num by (try lra; apply in_range_pos; lra).
  rewrite sub_num by (try lra; apply in_range_pos; lra).
  f_equal. lra.
Qed.

Lemma density_nan_at_example (ive : Np.routine2) :
  Cir.density_formula ive 5 0.03 0.01 0.01 0.05 0.01 = Np.NaN.
Proof.
  destruct (example_prefix 0.01 100) as
    (E & c & u & v & z & _ & Hc & Hu & Hv & Hz & Bc & Bu & Bv & Bz);
    [right; split; reflexivity|].
  destruct (scaled_exponential_in_range 5 0.01 0.01 0.05 0.01 u v z)
    as [Hs _]; try assumption; try lra;
    try (apply in_range_pos; lra); try (apply in_range_neg; lra).
  unfold Cir.density_formula.
  rewrite Hs, Hc, Hu, Hv, example_q.
  rewrite exp_underflows by lra.
  rewrite mul_num_zero by lra.
  assert (Hratio : 4 <= v / u <= 6).
  { pose proof (div_bounds v u 19000 20100) as H.
    lapply H; [clear H; intros H | lra].
    lapply H; [clear H; intros H | lra].
    lapply H; [clear H; intros H | lra].
    unfold Rdiv in *. lra. }
  rewrite (div_num v u) by (try lra; apply in_range_pos; lra).
  rewrite (div_num 2999 2) by (try lra; apply in_range_pos; lra).
  rewrite power_overflows by lra.
  rewrite mul_zero_inf. reflexivity.
Qed.

(** C1. With [params = [kappa, mu, sigma]], [CIR.exact_density] returns, in
    numpy's arithmetic, [c * exp(-(u+v) + |z|) * (v/u)^(q/2) * ive(q, z)]
    for [et], [c], [u], [v], [q], [z] as in the specification: the Bessel
    function enters through the scaled routine [ive] and the exponential
    is taken once, of the sum [-(u+v) + |z|].  That is not the same as
    taking the two exponentials one by one: at [kappa = 5], [sigma = 0.1],
    [x0 = 0.01], [xt = 0.05], [dt = 0.01] the scaled exponential is a
    positive number while [exp(-(u+v))] is zero and [exp(|z|)] is an
    infinity, whose product is NaN. *)
Theorem CIR_exact_density_formula
  (ive : Np.routine2) (self : Models.Model)
  (kappa mu sigma x0 xt t0 dt : R) :
  Models.params self = Some [kappa; mu; sigma] ->
  (let et := Np.exp (Np.mul (Np.neg (Np.Finite kappa)) (Np.Finite dt)) in
   let c :=
     Np.div (Np.mul (Np.Finite 2) (Np.Finite kappa))
       (Np.mul (Np.power (Np.Finite sigma) (Np.Finite 2))
          (Np.sub (Np.Finite 1) et)) in
   let u := Np.mul (Np.mul c (Np.Finite x0)) et in
   let v := Np.mul c (Np.Finite xt) in
   let q :=
     Np.sub
       (Np.div
          (Np.mul (Np.Finite 2) (Np.mul (Np.Finite kappa) (Np.Finite mu)))
          (Np.power (Np.Finite sigma) (Np.Finite 2)))
       (Np.Finite 1) in
   let z := Np.mul (Np.Finite 2) (Np.sqrt (Np.mul u v)) in
   Models.exact_density (Cir.CIR ive) self x0 xt t0 dt
   = Ok (Np.mul
           (Np.mul
              (Np.mul c (Np.exp (Np.add (Np.neg (Np.add u v)) (Np.abs z))))
              (Np.power (Np.div v u) (Np.div q (Np.Finite 2))))
           (ive q z)))
  /\ (exists e,
        Cir.scaled_exponential 5 0.1 0.01 0.05 0.01 = Np.Finite e
        /\ 0 < e <= 1
        /\ Cir.unscaled_exponentials 5 0.1 0.01 0.05 0.01 = Np.NaN).
Proof.
  intros Hp. split.
  - apply (CIR_exact_density_unfold ive self kappa mu sigma x0 xt t0 dt Hp).
  - apply rescaling_at_example.
Qed.

Lemma CIR_exact_density_formula_witness :
  Models.exact_density (Cir.CIR Samples.ive_one)
    (Models.params_setter (Cir.CIR Samples.ive_one) Cir.CIR__init__
       [5; 0.03; 0.1])
    0.01 0.05 0 0.01
  = Ok (Cir.density_formula Samples.ive_one 5 0.03 0.1 0.01 0.05 0.01).
Proof.
  apply (CIR_exact_density_formula Samples.ive_one
           (Models.params_setter (Cir.CIR Samples.ive_one) Cir.CIR__init__
              [5; 0.03; 0.1])
           5 0.03 0.1 0.01 0.05 0 0.01).
  reflexivity.
Defined.

(** C2 fails on the code. With [params = [5, 0.03, 0.01]], [x0 = 0.01],
    [xt = 0.05], [dt = 0.01], all inside the domain of the claim,
    [exact_density] returns NaN whatever [ive] returns: the scaled
    exponential underflows to zero, the power [(v/u)^(q/2)] overflows to
    an infinity, and their product is NaN before the Bessel factor is
    applied. *)
Theorem CIR_exact_density_nan_inside_domain (ive : Np.routine2) (t0 : R) :
  Models.exact_density (Cir.CIR ive)
    (Models.params_setter (Cir.CIR ive) Cir.CIR__init__ [5; 0.03; 0.01])
    0.01 0.05 t0 0.01
  = Ok Np.NaN.
Proof.
  rewrite (CIR_exact_density_unfold ive _ 5 0.03 0.01) by reflexivity.
  f_equal. apply density_nan_at_example.
Qed.

(** ** The minimizer *)

(** C7. Built without options, [ScipyMinimizer] holds the mapping
    [maxiter: 500, gtol: 1e-6, xtol: 1e-4, verbose: 1] and hands it to the
    routine; whenever the routine reports, [minimize] returns a [Result]
    whose [success] is the routine's, whose [message] is the routine's and
    whose [params] and [value] are the routine's [x] and [fun], whether or
    not [success] holds. *)
Theorem ScipyMinimizer_defaults_and_result
  (scipy_minimize :
     (list R -> R) -> option (list R) -> R -> string ->
     option Minimizer.Bounds -> Minimizer.dict ->
     result Minimizer.OptimizeResult)
  (method : string) (tol : R) (self : Minimizer.ScipyMinimizer)
  (function : list R -> R) (bounds : option Minimizer.Bounds)
  (guess : option (list R)) (res : Minimizer.OptimizeResult) :
  Minimizer._options (Minimizer.ScipyMinimizer__init__ method tol None)
  = [ ("maxiter", Minimizer.PyInt 500);
      ("gtol", Minimizer.PyFloat 1e-6);
      ("xtol", Minimizer.PyFloat 1e-4);
      ("verbose", Minimizer.PyInt 1) ]
  /\ Minimizer.minimize scipy_minimize
       (Minimizer.ScipyMinimizer__init__ method tol None)
       function bounds guess
     = result_map
         (fun r =>
            Minimizer.mkResult (Minimizer.res_x r) (Minimizer.res_fun r)
              (Minimizer.res_success r) (Minimizer.res_message r))
         (scipy_minimize function guess tol method bounds
            [ ("maxiter", Minimizer.PyInt 500);
              ("gtol", Minimizer.PyFloat 1e-6);
              ("xtol", Minimizer.PyFloat 1e-4);
              ("verbose", Minimizer.PyInt 1) ])
  /\ (scipy_minimize function guess (Minimizer._tol self)
        (Minimizer._method self) bounds (Minimizer._options self) = Ok res ->
      exists r,
        Minimizer.minimize scipy_minimize self function bounds guess = Ok r
        /\ (Minimizer.success r = true <-> Minimizer.res_success res = true)
        /\ Minimizer.message r = Minimizer.res_message res
        /\ Minimizer.params r = Minimizer.res_x res
        /\ Minimizer.value r = Minimizer.res_fun res).
Proof.
  split; [reflexivity|]. split; [reflexivity|].
  intros Hres. unfold Minimizer.minimize. rewrite Hres. cbn [bind].
  eexists. split; [reflexivity|]. cbn. repeat split; auto.
Qed.

Lemma ScipyMinimizer_defaults_and_result_witness :
  exists r,
    Minimizer.minimize Samples.routine
      (Minimizer.ScipyMinimizer__init__ Minimizer.method_default
         Minimizer.tol_default None)
      (fun p => 0) None (Some [0; 0]) = Ok r
    /\ (Minimizer.success r = true <-> false = true)
    /\ Minimizer.message r = "max iterations reached"
    /\ Minimizer.params r = [3; -1]
    /\ Minimizer.value r = 0.
Proof.
  destruct (ScipyMinimizer_defaults_and_result Samples.routine
              Minimizer.method_default Minimizer.tol_default
              (Minimizer.ScipyMinimizer__init__ Minimizer.method_default
                 Minimizer.tol_default None)
              (fun p => 0) None (Some [0; 0]) Samples.report)
    as (_ & _ & H).
  apply H. reflexivity.
Defined.

(** ** Data utilities *)

Section DataFacts.
Import DataUtils.

Lemma generate_ok (f : nat -> result R) (g : nat -> R) (idx : list nat) :
  (forall i, In i idx -> f i = Ok (g i)) ->
  generate f idx = Ok (map g idx).
Proof.
  induction idx as [|i idx IH]; intros Hf; simpl.
  - reflexivity.
  - rewrite (Hf i) by (now left). cbn [bind].
    rewrite IH by (intros j Hj; apply Hf; now right). reflexivity.
Qed.

Lemma getitem_nth (l : list R) (i : nat) :
  (i < List.length l)%nat -> getitem l i = Ok (nth i l 0).
Proof.
  intros Hi. unfold getitem.
  rewrite (nth_error_nth' l 0 Hi). reflexivity.
Qed.

Lemma squares_by_index (x y : list R) :
  List.length x = List.length y ->
  map (fun i => (nth i x 0 - nth i y 0) ^ 2) (seq 0 (List.length x))
  = map (fun ab => (fst ab - snd ab) ^ 2) (combine x y).
Proof.
  revert y. induction x as [|a x IH]; intros [|b y] Hlen;
    try discriminate; simpl.
  - reflexivity.
  - f_equal. rewrite <- seq_shift, map_map. apply IH.
    now injection Hlen.
Qed.

Lemma py_sum_fold_right (l : list R) : py_sum l = fold_right Rplus 0 l.
Proof.
  unfold py_sum. apply fold_symmetric; intros; ring.
Qed.

Lemma mean_squared_error_equal_length (x_1 x_2 : list R) :
  List.length x_1 = List.length x_2 ->
  mean_squared_error x_1 x_2
  = truediv_int
      (fold_right Rplus 0
         (map (fun ab => (fst ab - snd ab) ^ 2) (combine x_1 x_2)))
      (List.length x_1).
Proof.
  intros Hlen. unfold mean_squared_error.
  rewrite (proj2 (Nat.eqb_eq _ _) Hlen). cbn [negb].
  rewrite (generate_ok _ (fun i => (nth i x_1 0 - nth i x_2 0) ^ 2)).
  - cbn [bind]. rewrite py_sum_fold_right, squares_by_index by assumption.
    reflexivity.
  - intros i Hi. apply in_seq in Hi as [_ Hi]. simpl in Hi.
    rewrite !getitem_nth by lia. reflexivity.
Qed.

End DataFacts.

(** C8 as stated fails: two empty sequences have equal length, and the
    division by their length raises [ZeroDivisionError]. *)
Lemma mean_squared_error_empty_raises :
  DataUtils.mean_squared_error [] [] = Raise ZeroDivisionError
  /\ ~ (forall x_1 x_2 : list R,
          List.length x_1 = List.length x_2 ->
          exists m, DataUtils.mean_squared_error x_1 x_2 = Ok m).
Proof.
  split; [reflexivity|].
  intros H. destruct (H [] [] eq_refl) as [m Hm]. discriminate Hm.
Qed.

(** C8, amended. For two non-empty sequences of equal length,
    [mean_squared_error] returns the mean of the element-wise squared
    differences ([1/3] for [1,2,3] and [1,2,4]); for sequences of different
    lengths it raises [ValueError] and returns nothing. *)
Theorem mean_squared_error_spec (x_1 x_2 : list R) :
  (List.length x_1 = List.length x_2 -> x_1 <> [] ->
   DataUtils.mean_squared_error x_1 x_2
   = Ok (fold_right Rplus 0
           (map (fun ab => (fst ab - snd ab) ^ 2) (combine x_1 x_2))
         / INR (List.length x_1)))
  /\ (List.length x_1 <> List.length x_2 ->
      DataUtils.mean_squared_error x_1 x_2 = Raise ValueError)
  /\ DataUtils.mean_squared_error [1; 2; 3] [1; 2; 4] = Ok (1 / 3).
Proof.
  split; [|split].
  - intros Hlen Hne. rewrite mean_squared_error_equal_length by assumption.
    destruct x_1 as [|a x_1]; [now elim Hne|]. reflexivity.
  - intros Hlen. unfold DataUtils.mean_squared_error.
    rewrite (proj2 (Nat.eqb_neq _ _) Hlen). reflexivity.
  - rewrite mean_squared_error_equal_length by reflexivity.
    cbn [List.length DataUtils.truediv_int combine map fold_right fst snd].
    f_equal. simpl. field.
Qed.

Lemma mean_squared_error_spec_witness :
  DataUtils.mean_squared_error [1; 5] [3; 5]
  = Ok (fold_right Rplus 0
          (map (fun ab => (fst ab - snd ab) ^ 2) (combine [1; 5] [3; 5]))
        / INR 2)
  /\ DataUtils.mean_squared_error [1; 5] [3] = Raise ValueError.
Proof.
  destruct (mean_squared_error_spec [1; 5] [3; 5]) as (H & _ & _).
  destruct (mean_squared_error_spec [1; 5] [3]) as (_ & H' & _).
  split.
  - apply H; [reflexivity | discriminate].
  - apply H'. discriminate.
Defined.

Section HittingFacts.
Import DataUtils.

Variable level : R.

Lemma argmax_from_true (mask : list bool) :
  forall best_i i, argmax_from true best_i i mask = best_i.
Proof.
  induction mask as [|b mask IH]; intros best_i i; simpl.
  - reflexivity.
  - apply IH.
Qed.

Lemma argmax_from_false (series : list R) :
  forall best_i i,
    argmax_from false best_i i (ge_mask series level)
    = match first_at_or_above series level with
      | Some k => (i + k)%nat
      | None => best_i
      end.
Proof.
  induction series as [|v series IH]; intros best_i i; simpl.
  - reflexivity.
  - unfold geb. destruct (Rge_dec v level) as [Hv|Hv]; simpl.
    + rewrite argmax_from_true. lia.
    + rewrite IH. destruct (first_at_or_above series level); simpl; lia.
Qed.

Lemma np_argmax_ge_mask (series : list R) :
  series <> [] ->
  np_argmax (ge_mask series level)
  = Ok (match first_at_or_above series level with
        | Some k => k
        | None => O
        end).
Proof.
  destruct series as [|v series]; intros Hne; [now elim Hne|]. simpl.
  unfold geb. destruct (Rge_dec v level) as [Hv|Hv].
  - rewrite argmax_from_true. reflexivity.
  - rewrite argmax_from_false.
    destruct (first_at_or_above series level); reflexivity.
Qed.

Lemma first_at_or_above_some (series : list R) :
  forall k, first_at_or_above series level = Some k ->
    (k < List.length series)%nat
    /\ nth k series 0 >= level
    /\ forall j, (j < k)%nat -> ~ nth j series 0 >= level.
Proof.
  induction series as [|v series IH]; intros k Hk; simpl in Hk.
  - discriminate.
  - destruct (Rge_dec v level) as [Hv|Hv].
    + injection Hk as <-. simpl. repeat split; [lia | assumption | lia].
    + destruct (first_at_or_above series level) as [k'|]; [|discriminate].
      injection Hk as <-. destruct (IH k' eq_refl) as (Hlt & Hge & Hbefore).
      simpl. repeat split; [lia | assumption |].
      intros [|j] Hj; [assumption | apply Hbefore; lia].
Qed.

Lemma first_at_or_above_none (series : list R) :
  first_at_or_above series level = None ->
  forall v, In v series -> ~ v >= level.
Proof.
  induction series as [|a series IH]; intros Hnone v Hin; simpl in *.
  - contradiction.
  - destruct (Rge_dec a level) as [Ha|Ha]; [discriminate|].
    destruct (first_at_or_above series level); [discriminate|].
    destruct Hin as [<-|Hin]; [assumption | now apply IH].
Qed.

Lemma first_at_or_above_unique (series : list R) (i : nat) :
  (i < List.length series)%nat ->
  nth i series 0 >= level ->
  (forall j, (j < i)%nat -> ~ nth j series 0 >= level) ->
  first_at_or_above series level = Some i.
Proof.
  intros Hi Hge Hbefore.
  destruct (first_at_or_above series level) as [k|] eqn:Hk.
  - destruct (first_at_or_above_some _ _ Hk) as (Hklt & Hkge & Hkbefore).
    destruct (Nat.lt_trichotomy k i) as [Hlt|[->|Hgt]].
    + elim (Hbefore k Hlt). exact Hkge.
    + reflexivity.
    + elim (Hkbefore i Hgt). exact Hge.
  - elim (first_at_or_above_none _ Hk (nth i series 0)).
    + now apply nth_In.
    + exact Hge.
Qed.

End HittingFacts.

(** C9 as stated fails: on an empty model sequence, where no value reaches
    the target, the search raises [ValueError] and no index is returned. *)
Lemma expected_time_to_target_empty_raises :
  DataUtils.expected_time_to_target [] [] 0 0 0 = Raise ValueError
  /\ ~ (forall (data model : list R) (starting_point target_level : R)
          (max_periods : Z),
          (forall v, In v model -> ~ v >= target_level) ->
          DataUtils.expected_time_to_target data model starting_point
            target_level max_periods = Ok O).
Proof.
  split; [reflexivity|].
  intros H. specialize (H [] [] 0 0 0%Z (fun v Hin _ => Hin)).
  discriminate H.
Qed.

(** C9, amended. For a non-empty model sequence, whatever the data, the
    starting point and [max_periods], [expected_time_to_target] returns the
    position of the first value at or above the target, and [0] when no
    value of the sequence reaches it; [0] is thus returned both for a hit
    at the first period and for no hit at all. *)
Theorem expected_time_to_target_spec
  (data model : list R) (starting_point target_level : R) (max_periods : Z) :
  model <> [] ->
  (forall i,
      (i < List.length model)%nat ->
      nth i model 0 >= target_level ->
      (forall j, (j < i)%nat -> ~ nth j model 0 >= target_level) ->
      DataUtils.expected_time_to_target data model starting_point
        target_level max_periods = Ok i)
  /\ ((forall v, In v model -> ~ v >= target_level) ->
      DataUtils.expected_time_to_target data model starting_point
        target_level max_periods = Ok O)
  /\ DataUtils.expected_time_to_target data [target_level; target_level - 1]
       starting_point target_level max_periods = Ok O
  /\ DataUtils.expected_time_to_target data [target_level - 1]
       starting_point target_level max_periods = Ok O.
Proof.
  intros Hne. unfold DataUtils.expected_time_to_target.
  split; [|split; [|split]].
  - intros i Hi Hge Hbefore. rewrite np_argmax_ge_mask by assumption.
    rewrite (first_at_or_above_unique _ _ _ Hi Hge Hbefore). reflexivity.
  - intros Hnone. rewrite np_argmax_ge_mask by assumption.
    destruct (DataUtils.first_at_or_above model target_level) as [k|] eqn:Hk;
      [|reflexivity].
    destruct (first_at_or_above_some _ _ _ Hk) as (Hlt & Hge & _).
    elim (Hnone (nth k model 0)); [now apply nth_In | exact Hge].
  - rewrite np_argmax_ge_mask by discriminate. simpl.
    destruct (Rge_dec target_level target_level) as [_|Hn];
      [reflexivity | elim Hn; lra].
  - rewrite np_argmax_ge_mask by discriminate. simpl.
    destruct (Rge_dec (target_level - 1) target_level) as [Hge|_];
      [lra | reflexivity].
Qed.

Lemma expected_time_to_target_spec_witness :
  DataUtils.expected_time_to_target [] [1; 2; 5; 3; 7] 1 4 3 = Ok 2%nat
  /\ DataUtils.expected_time_to_target [] [1; 2; 3] 1 4 3 = Ok O.
Proof.
  split.
  - destruct (expected_time_to_target_spec [] [1; 2; 5; 3; 7] 1 4 3)
      as (H & _); [discriminate|].
    apply (H 2%nat); simpl; [lia | lra |].
    intros [|[|j]] Hj; simpl; [lra | lra | lia].
  - destruct (expected_time_to_target_spec [] [1; 2; 3] 1 4 3)
      as (_ & H & _); [discriminate|].
    apply H. simpl. intros v [<-|[<-|[<-|[]]]]; lra.
Defined.

(** C10. [conditional_expectation] is a function of [model],
    [target_level] and [T] alone: two calls that agree on these return the
    same value whatever their [data] and [starting_point]. *)
Theorem conditional_expectation_ignores_data
  (data data' model : list R) (starting_point starting_point' : R)
  (target_level : R) (T : Z) :
  DataUtils.conditional_expectation data model starting_point target_level T
  = DataUtils.conditional_expectation data' model starting_point'
      target_level T.
Proof. reflexivity. Qed.

(** ** Sanity checks on concrete inputs *)

Example conditional_expectation_sample :
  DataUtils.conditional_expectation [] [1; 2; 5; 3; 7] 1 3 4
  = DataUtils.Finite (INR 2 / INR 4).
Proof.
  unfold DataUtils.conditional_expectation. simpl. unfold DataUtils.geb.
  repeat (destruct (Rge_dec _ _); try lra). reflexivity.
Qed.

Example conditional_expectation_empty_window :
  DataUtils.conditional_expectation [] [1; 2; 5] 1 3 0 = DataUtils.NaN.
Proof. reflexivity. Qed.

Example slice_to_negative :
  DataUtils.slice_to [1; 2; 5; 3] (-1) = [1; 2; 5].
Proof. reflexivity. Qed.

Example CIR_drift_sample (ive : Np.routine2) :
  Models.drift (Cir.CIR ive)
    (Models.params_setter (Cir.CIR ive) Cir.CIR__init__ [5; 0.03; 0.1])
    0.01 0
  = Ok (5 * (0.03 - 0.01)).
Proof. reflexivity. Qed.

Example CIR_drift_without_params (ive : Np.routine2) :
  Models.drift (Cir.CIR ive) Cir.CIR__init__ 0.01 0 = Raise TypeError.
Proof. reflexivity. Qed.

Example CIR_drift_t_zero (ive : Np.routine2) (self : Models.Model) (x t : R) :
  Models.drift_t (Cir.CIR ive) self x t = Ok 0.
Proof. reflexivity. Qed.

(** With the inherited centred difference, the spatial derivative of the
    CIR drift is [- kappa] in exact arithmetic. *)
Example CIR_drift_x_exact (ive : Np.routine2) (kappa mu sigma x t : R) :
  exists d,
    Models.drift_x (Cir.CIR ive)
      (Models.params_setter (Cir.CIR ive) Cir.CIR__init__ [kappa; mu; sigma])
      x t = Ok d
    /\ d = - kappa.
Proof.
  eexists. split; [reflexivity|]. field.
Qed.

Example default_model_flag_after_set (v : list R) :
  Models.is_positive
    (Models.params_setter
       (Models.mkClass Samples.Plain_drift Samples.Plain_diffusion
          None None None None None None None None)
       Samples.Plain__init__ v)
  = false.
Proof. reflexivity. Qed.

Example empty_options_fall_back (method : string) (tol : R) :
  Minimizer.ScipyMinimizer__init__ method tol (Some [])
  = Minimizer.ScipyMinimizer__init__ method tol None.
Proof. reflexivity. Qed.

(** * Further properties of the code *)

(** ** The model object over its lifetime *)

Lemma last_assigned_default (cs : list Models.call) :
  forall cur,
    Traces.last_assigned cs cur
    = match Traces.last_assigned cs None with
      | Some v => Some v
      | None => cur
      end.
Proof.
  induction cs as [|c cs IH]; intros cur.
  - reflexivity.
  - destruct c; simpl; try apply IH.
    rewrite (IH (Some vals)).
    destruct (Traces.last_assigned cs None); reflexivity.
Qed.

Lemma run_last_assigned (C : Models.ClassBody) (cs : list Models.call) :
  forall s,
    Models.params (Models.run C cs s)
    = Traces.last_assigned cs (Models.params s)
    /\ Models.is_positive (Models.run C cs s)
       = match Traces.last_assigned cs None with
         | Some v => Models._set_is_positive C v
         | None => Models.is_positive s
         end.
Proof.
  induction cs as [|c cs IH]; intros s.
  - split; reflexivity.
  - destruct (IH (snd (Models.invoke C c s))) as [Hp Hf].
    destruct c; simpl in *; try (split; assumption).
    split; [exact Hp|].
    rewrite Hf, (last_assigned_default cs (Some vals)).
    destruct (Traces.last_assigned cs None); reflexivity.
Qed.

(** X1. Followed from its construction through any interactions, a model
    object holds as [params] the vector of the most recent assignment
    ([None] before the first one), and as [is_positive] the class's
    predicate of that vector ([False] before the first one). *)
Theorem model_state_is_last_assignment
  (C : Models.ClassBody) (has_exact_density : bool)
  (default_sim_method : string) (cs : list Models.call) :
  Models.params
    (Models.run C cs
       (Models.Model__init__ has_exact_density default_sim_method))
  = Traces.last_assigned cs None
  /\ Models.is_positive
       (Models.run C cs
          (Models.Model__init__ has_exact_density default_sim_method))
     = match Traces.last_assigned cs None with
       | Some v => Models._set_is_positive C v
       | None => false
       end.
Proof.
  destruct (run_last_assigned C cs
              (Models.Model__init__ has_exact_density default_sim_method))
    as (Hp & Hf).
  split; assumption.
Qed.

(** X2. The capability flag and the default simulation method given at
    construction are never changed by any interaction with the object, an
    assignment to [params] included. *)
Theorem construction_attributes_immutable
  (C : Models.ClassBody) (cs : list Models.call) (self : Models.Model) :
  Models.has_exact_density (Models.run C cs self)
  = Models.has_exact_density self
  /\ Models.default_sim_method (Models.run C cs self)
     = Models.default_sim_method self.
Proof.
  revert self. induction cs as [|c cs IH]; intros self; simpl.
  - split; reflexivity.
  - destruct (IH (snd (Models.invoke C c self))) as [Hd Hm].
    rewrite Hd, Hm. destruct c; split; reflexivity.
Qed.

(** ** Failures inside the inherited derivatives *)

Lemma bind_raise_iff {A B : Type} (r : result A) (k : A -> result B)
  (e : exn) :
  bind r k = Raise e
  <-> r = Raise e \/ exists a, r = Ok a /\ k a = Raise e.
Proof.
  destruct r as [a|e']; simpl; split.
  - intros H. right. exists a. split; [reflexivity | exact H].
  - intros [H|[a' [Ha H]]]; [discriminate|]. injection Ha as <-. exact H.
  - intros H. left. congruence.
  - intros [H|[a' [Ha _]]]; [congruence | discriminate].
Qed.

Lemma difference2_raise_iff (f : R -> R -> R) (r1 r2 : result R) (e : exn) :
  (a <- r1 ;; b <- r2 ;; Ok (f a b)) = Raise e
  <-> r1 = Raise e \/ ((exists a, r1 = Ok a) /\ r2 = Raise e).
Proof.
  rewrite bind_raise_iff. split.
  - intros [H|[a [Ha H]]]; [now left|]. right.
    apply bind_raise_iff in H as [H|[b [_ H]]]; [|discriminate].
    split; [now exists a | exact H].
  - intros [H|[[a Ha] H]]; [now left|]. right. exists a.
    split; [exact Ha|]. rewrite H. reflexivity.
Qed.

Lemma difference3_raise_iff (f : R -> R -> R -> R) (r1 r2 r3 : result R)
  (e : exn) :
  (a <- r1 ;; b <- r2 ;; c <- r3 ;; Ok (f a b c)) = Raise e
  <-> r1 = Raise e
      \/ ((exists a, r1 = Ok a) /\ r2 = Raise e)
      \/ ((exists a, r1 = Ok a) /\ (exists b, r2 = Ok b) /\ r3 = Raise e).
Proof.
  rewrite bind_raise_iff. split.
  - intros [H|[a [Ha H]]]; [now left|]. right.
    apply (difference2_raise_iff (f a)) in H as [H|[Hb H]].
    + left. split; [now exists a | exact H].
    + right. split; [now exists a|]. split; assumption.
  - intros [H|[[[a Ha] H]|[[a Ha] [Hb H]]]]; [now left| |]; right; exists a;
      (split; [exact Ha|]); apply (difference2_raise_iff (f a)).
    + now left.
    + right. split; assumption.
Qed.

(** X3. A derivative method inherited from [Model] raises exactly the
    exception of the first evaluation of [drift] (or [diffusion]) that
    fails, the evaluations being made in the order [x+h], ([x],) [x-h] for
    the spatial derivatives and [t+h], [t] for the time derivative; it
    raises nothing of its own. *)
Theorem inherited_derivative_raises_first_failure
  (C : Models.ClassBody) (self : Models.Model) (x t : R) (e : exn) :
  (Models.def_drift_x C = None ->
   (Models.drift_x C self x t = Raise e
    <-> Models.drift C self (x + 1e-5) t = Raise e
        \/ ((exists a, Models.drift C self (x + 1e-5) t = Ok a)
            /\ Models.drift C self (x - 1e-5) t = Raise e)))
  /\ (Models.def_drift_t C = None ->
      (Models.drift_t C self x t = Raise e
       <-> Models.drift C self x (t + 1e-5) = Raise e
           \/ ((exists a, Models.drift C self x (t + 1e-5) = Ok a)
               /\ Models.drift C self x t = Raise e)))
  /\ (Models.def_drift_xx C = None ->
      (Models.drift_xx C self x t = Raise e
       <-> Models.drift C self (x + 1e-5) t = Raise e
           \/ ((exists a, Models.drift C self (x + 1e-5) t = Ok a)
               /\ Models.drift C self x t = Raise e)
           \/ ((exists a, Models.drift C self (x + 1e-5) t = Ok a)
               /\ (exists b, Models.drift C self x t = Ok b)
               /\ Models.drift C self (x - 1e-5) t = Raise e)))
  /\ (Models.def_diffusion_x C = None ->
      (Models.diffusion_x C self x t = Raise e
       <-> Models.diffusion C self (x + 1e-5) t = Raise e
           \/ ((exists a, Models.diffusion C self (x + 1e-5) t = Ok a)
               /\ Models.diffusion C self (x - 1e-5) t = Raise e)))
  /\ (Models.def_diffusion_xx C = None ->
      (Models.diffusion_xx C self x t = Raise e
       <-> Models.diffusion C self (x + 1e-5) t = Raise e
           \/ ((exists a, Models.diffusion C self (x + 1e-5) t = Ok a)
               /\ Models.diffusion C self x t = Raise e)
           \/ ((exists a, Models.diffusion C self (x + 1e-5) t = Ok a)
               /\ (exists b, Models.diffusion C self x t = Ok b)
               /\ Models.diffusion C self (x - 1e-5) t = Raise e))).
Proof.
  unfold Models.drift_x, Models.drift_t, Models.drift_xx,
    Models.diffusion_x, Models.diffusion_xx.
  split; [|split; [|split; [|split]]]; intros Hinherit; rewrite Hinherit;
    cbn [Models.resolve].
  - apply (difference2_raise_iff (fun a b => (a - b) / (2 * 1e-05))).
  - apply (difference2_raise_iff (fun a b => (a - b) / 1e-05)).
  - apply (difference3_raise_iff
             (fun a b c => (a - 2 * b + c) / (1e-05 * 1e-05))).
  - apply (difference2_raise_iff (fun a b => (a - b) / (2 * 1e-05))).
  - apply (difference3_raise_iff
             (fun a b c => (a - 2 * b + c) / (1e-05 * 1e-05))).
Qed.

Lemma inherited_derivative_raises_first_failure_witness :
  Models.drift_x (Cir.CIR Samples.ive_one) Cir.CIR__init__ 2 1
  = Raise TypeError
  /\ Models.diffusion_xx (Cir.CIR Samples.ive_one)
       (Models.params_setter (Cir.CIR Samples.ive_one) Cir.CIR__init__
          [5; 0.03])
       2 1
     = Raise IndexError.
Proof.
  split.
  - destruct (inherited_derivative_raises_first_failure
                (Cir.CIR Samples.ive_one) Cir.CIR__init__ 2 1 TypeError)
      as (H & _).
    apply H; [reflexivity|]. left. reflexivity.
  - destruct (inherited_derivative_raises_first_failure
                (Cir.CIR Samples.ive_one)
                (Models.params_setter (Cir.CIR Samples.ive_one)
                   Cir.CIR__init__ [5; 0.03])
                2 1 IndexError)
      as (_ & _ & _ & _ & H).
    apply H; [reflexivity|]. left. reflexivity.
Defined.

(** ** The CIR model: when its methods are defined *)

(** X4. [CIR.drift] and [CIR.diffusion] raise [TypeError] while no vector
    has been assigned and [IndexError] when the vector is too short (fewer
    than two entries for the drift, fewer than three for the diffusion);
    otherwise they return [kappa * (mu - x)] and [sigma * sqrt(x)], entries
    beyond the third being ignored. *)
Theorem CIR_drift_diffusion_defined
  (ive : Np.routine2) (self : Models.Model) (x t : R) :
  (Models.params self = None ->
   Models.drift (Cir.CIR ive) self x t = Raise TypeError
   /\ Models.diffusion (Cir.CIR ive) self x t = Raise TypeError)
  /\ (forall p, Models.params self = Some p ->
      ((List.length p < 2)%nat ->
       Models.drift (Cir.CIR ive) self x t = Raise IndexError)
      /\ ((List.length p < 3)%nat ->
          Models.diffusion (Cir.CIR ive) self x t = Raise IndexError)
      /\ (forall kappa mu rest, p = kappa :: mu :: rest ->
          Models.drift (Cir.CIR ive) self x t = Ok (kappa * (mu - x)))
      /\ (forall kappa mu sigma rest, p = kappa :: mu :: sigma :: rest ->
          Models.diffusion (Cir.CIR ive) self x t = Ok (sigma * sqrt x))).
Proof.
  unfold Models.params, Models.drift, Models.diffusion.
  cbn [Cir.CIR Models.def_drift Models.def_diffusion].
  unfold Cir.CIR_drift, Cir.CIR_diffusion. split.
  - intros ->. split; reflexivity.
  - intros p ->. repeat split.
    + intros Hlen. destruct p as [|a [|b p]]; simpl in Hlen;
        [reflexivity | reflexivity | lia].
    + intros Hlen. destruct p as [|a [|b [|c p]]]; simpl in Hlen;
        [reflexivity | reflexivity | reflexivity | lia].
    + intros kappa mu rest ->. reflexivity.
    + intros kappa mu sigma rest ->. reflexivity.
Qed.

Lemma CIR_drift_diffusion_defined_witness :
  Models.drift (Cir.CIR Samples.ive_one) Cir.CIR__init__ 2 0
  = Raise TypeError
  /\ Models.drift (Cir.CIR Samples.ive_one)
       (Models.params_setter (Cir.CIR Samples.ive_one) Cir.CIR__init__
          [5; 0.03]) 2 0
     = Ok (5 * (0.03 - 2))
  /\ Models.diffusion (Cir.CIR Samples.ive_one)
       (Models.params_setter (Cir.CIR Samples.ive_one) Cir.CIR__init__
          [5; 0.03]) 2 0
     = Raise IndexError.
Proof.
  destruct (CIR_drift_diffusion_defined Samples.ive_one Cir.CIR__init__ 2 0)
    as (Hnone & _).
  destruct (CIR_drift_diffusion_defined Samples.ive_one
              (Models.params_setter (Cir.CIR Samples.ive_one)
                 Cir.CIR__init__ [5; 0.03]) 2 0)
    as (_ & Hsome).
  destruct (Hsome [5; 0.03] eq_refl) as (_ & Hshort & Hdrift & _).
  split; [|split].
  - apply Hnone. reflexivity.
  - apply (Hdrift 5 0.03 []). reflexivity.
  - apply Hshort. simpl. lia.
Defined.

(** X5. [CIR.exact_density] returns a value exactly when the stored vector
    has three entries: it raises [TypeError] while no vector has been
    assigned and [ValueError] for a vector of any other length, so that a
    four-entry vector serves [drift] and [diffusion] but not the density. *)
Theorem CIR_exact_density_defined
  (ive : Np.routine2) (self : Models.Model) (x0 xt t0 dt : R) :
  (Models.params self = None ->
   Models.exact_density (Cir.CIR ive) self x0 xt t0 dt = Raise TypeError)
  /\ (forall p, Models.params self = Some p ->
      (List.length p <> 3%nat ->
       Models.exact_density (Cir.CIR ive) self x0 xt t0 dt
       = Raise ValueError)
      /\ (List.length p = 3%nat ->
          exists d,
            Models.exact_density (Cir.CIR ive) self x0 xt t0 dt = Ok d)).
Proof.
  unfold Models.params, Models.exact_density.
  cbn [Cir.CIR Models.def_exact_density Models.resolve].
  unfold Cir.CIR_exact_density. split.
  - intros ->. reflexivity.
  - intros p ->. split; intros Hlen;
      destruct p as [|a [|b [|c [|d p]]]]; simpl in Hlen;
      try reflexivity; try lia; try discriminate.
    eexists. reflexivity.
Qed.

Lemma CIR_exact_density_defined_witness :
  Models.exact_density (Cir.CIR Samples.ive_one) Cir.CIR__init__ 1 2 0 1
  = Raise TypeError
  /\ Models.exact_density (Cir.CIR Samples.ive_one)
       (Models.params_setter (Cir.CIR Samples.ive_one) Cir.CIR__init__
          [5; 0.03; 0.1; 7]) 1 2 0 1
     = Raise ValueError
  /\ exists d,
       Models.exact_density (Cir.CIR Samples.ive_one)
         (Models.params_setter (Cir.CIR Samples.ive_one) Cir.CIR__init__
            [5; 0.03; 0.1]) 1 2 0 1
       = Ok d.
Proof.
  destruct (CIR_exact_density_defined Samples.ive_one Cir.CIR__init__
              1 2 0 1) as (Hnone & _).
  destruct (CIR_exact_density_defined Samples.ive_one
              (Models.params_setter (Cir.CIR Samples.ive_one)
                 Cir.CIR__init__ [5; 0.03; 0.1; 7]) 1 2 0 1)
    as (_ & H4).
  destruct (CIR_exact_density_defined Samples.ive_one
              (Models.params_setter (Cir.CIR Samples.ive_one)
                 Cir.CIR__init__ [5; 0.03; 0.1]) 1 2 0 1)
    as (_ & H3).
  split; [|split].
  - apply Hnone. reflexivity.
  - apply (H4 _ eq_refl). simpl. lia.
  - apply (H3 _ eq_refl). reflexivity.
Defined.

(** ** The CIR model: drift and diffusion *)

(** X6. For the CIR model the inherited centred differences are exact:
    [drift_x] returns [- kappa] and [drift_xx] returns [0], at every [x]
    and [t], in exact arithmetic. *)
Theorem CIR_drift_derivatives_exact
  (ive : Np.routine2) (self : Models.Model) (kappa mu : R) (rest : list R)
  (x t : R) :
  Models.params self = Some (kappa :: mu :: rest) ->
  Models.drift_x (Cir.CIR ive) self x t = Ok (- kappa)
  /\ Models.drift_xx (Cir.CIR ive) self x t = Ok 0.
Proof.
  unfold Models.params. intros Hp.
  unfold Models.drift_x, Models.drift_xx.
  cbn [Cir.CIR Models.def_drift_x Models.def_drift_xx Models.resolve].
  unfold Models.Model_drift_x, Models.Model_drift_xx, Models.drift.
  cbn [Cir.CIR Models.def_drift]. unfold Cir.CIR_drift. rewrite Hp.
  cbn [getitem nth_error bind]. split; f_equal; field.
Qed.

Lemma CIR_drift_derivatives_exact_witness :
  Models.drift_x (Cir.CIR Samples.ive_one)
    (Models.params_setter (Cir.CIR Samples.ive_one) Cir.CIR__init__
       [5; 0.03; 0.1]) 2 1
  = Ok (- 5)
  /\ Models.drift_xx (Cir.CIR Samples.ive_one)
       (Models.params_setter (Cir.CIR Samples.ive_one) Cir.CIR__init__
          [5; 0.03; 0.1]) 2 1
     = Ok 0.
Proof.
  apply (CIR_drift_derivatives_exact Samples.ive_one
           (Models.params_setter (Cir.CIR Samples.ive_one) Cir.CIR__init__
              [5; 0.03; 0.1]) 5 0.03 [0.1] 2 1).
  reflexivity.
Defined.

(** X7. The override [CIR.drift_t] returns [0] in every state.  The
    forward difference of [Model] that it replaces returns [0] exactly
    when a vector with at least two entries is stored; it raises
    [TypeError] exactly when no vector is stored and [IndexError] exactly
    when the stored vector has fewer than two entries.  So the two agree
    exactly on the states with at least two parameters. *)
Theorem CIR_drift_t_override_agrees
  (ive : Np.routine2) (self : Models.Model) (x t : R) :
  Models.drift_t (Cir.CIR ive) self x t = Ok 0
  /\ (Models.Model_drift_t (Cir.CIR ive) self x t = Ok 0
      <-> exists p, Models.params self = Some p /\ (2 <= List.length p)%nat)
  /\ (Models.Model_drift_t (Cir.CIR ive) self x t = Raise TypeError
      <-> Models.params self = None)
  /\ (Models.Model_drift_t (Cir.CIR ive) self x t = Raise IndexError
      <-> exists p, Models.params self = Some p /\ (List.length p < 2)%nat)
  /\ (Models.Model_drift_t (Cir.CIR ive) self x t
      = Models.drift_t (Cir.CIR ive) self x t
      <-> exists p, Models.params self = Some p /\ (2 <= List.length p)%nat).
Proof.
  assert (Hover : Models.drift_t (Cir.CIR ive) self x t = Ok 0)
    by reflexivity.
  rewrite Hover. split; [reflexivity|].
  unfold Models.params, Models.Model_drift_t, Models.drift.
  cbn [Cir.CIR Models.def_drift]. unfold Cir.CIR_drift.
  destruct (Models._params self) as [[|kappa [|mu rest]]|];
    cbn [getitem nth_error bind].
  - repeat split; try discriminate; try reflexivity.
    + intros [p [Hp Hlen]]. injection Hp as <-. simpl in Hlen. lia.
    + intros _. exists []. split; [reflexivity | simpl; lia].
    + intros [p [Hp Hlen]]. injection Hp as <-. simpl in Hlen. lia.
  - repeat split; try discriminate; try reflexivity.
    + intros [p [Hp Hlen]]. injection Hp as <-. simpl in Hlen. lia.
    + intros _. exists [kappa]. split; [reflexivity | simpl; lia].
    + intros [p [Hp Hlen]]. injection Hp as <-. simpl in Hlen. lia.
  - assert (Hval : (kappa * (mu - x) - kappa * (mu - x)) / 1e-05 = 0)
      by field.
    rewrite Hval. repeat split; try discriminate; try reflexivity.
    + intros _. exists (kappa :: mu :: rest).
      split; [reflexivity | simpl; lia].
    + intros [p [Hp Hlen]]. injection Hp as <-. simpl in Hlen. lia.
    + intros _. exists (kappa :: mu :: rest).
      split; [reflexivity | simpl; lia].
  - repeat split; try discriminate; try reflexivity.
    + intros [p [Hp _]]. discriminate.
    + intros [p [Hp _]]. discriminate.
    + intros [p [Hp _]]. discriminate.
Qed.

Lemma CIR_drift_t_override_agrees_witness :
  Models.Model_drift_t (Cir.CIR Samples.ive_one)
    (Models.params_setter (Cir.CIR Samples.ive_one) Cir.CIR__init__
       [5; 0.03; 0.1]) 2 1
  = Ok 0
  /\ Models.Model_drift_t (Cir.CIR Samples.ive_one) Cir.CIR__init__ 2 1
     = Raise TypeError
  /\ Models.Model_drift_t (Cir.CIR Samples.ive_one)
       (Models.params_setter (Cir.CIR Samples.ive_one) Cir.CIR__init__ [5])
       2 1
     = Raise IndexError.
Proof.
  destruct (CIR_drift_t_override_agrees Samples.ive_one
              (Models.params_setter (Cir.CIR Samples.ive_one)
                 Cir.CIR__init__ [5; 0.03; 0.1]) 2 1) as (_ & H & _).
  destruct (CIR_drift_t_override_agrees Samples.ive_one Cir.CIR__init__ 2 1)
    as (_ & _ & H' & _).
  destruct (CIR_drift_t_override_agrees Samples.ive_one
              (Models.params_setter (Cir.CIR Samples.ive_one)
                 Cir.CIR__init__ [5]) 2 1) as (_ & _ & _ & H'' & _).
  split; [|split].
  - apply H. exists [5; 0.03; 0.1]. split; [reflexivity | simpl; lia].
  - apply H'. reflexivity.
  - apply H''. exists [5]. split; [reflexivity | simpl; lia].
Defined.

(** X8. With [kappa > 0] the CIR drift pulls the state towards [mu]: it is
    positive below [mu], zero at [mu] and negative above. *)
Theorem CIR_drift_mean_reverting
  (ive : Np.routine2) (self : Models.Model) (kappa mu : R) (rest : list R)
  (x t : R) :
  Models.params self = Some (kappa :: mu :: rest) ->
  0 < kappa ->
  exists d,
    Models.drift (Cir.CIR ive) self x t = Ok d
    /\ (x < mu <-> 0 < d) /\ (x = mu <-> d = 0) /\ (mu < x <-> d < 0).
Proof.
  intros Hp Hk.
  destruct (CIR_drift_diffusion_defined ive self x t) as (_ & H).
  destruct (H _ Hp) as (_ & _ & Hd & _).
  exists (kappa * (mu - x)). split; [apply (Hd kappa mu rest eq_refl)|].
  repeat split; intros; nra.
Qed.

Lemma CIR_drift_mean_reverting_witness :
  exists d,
    Models.drift (Cir.CIR Samples.ive_one)
      (Models.params_setter (Cir.CIR Samples.ive_one) Cir.CIR__init__
         [5; 0.03; 0.1]) 2 0 = Ok d
    /\ (2 < 0.03 <-> 0 < d) /\ (2 = 0.03 <-> d = 0) /\ (0.03 < 2 <-> d < 0).
Proof.
  apply (CIR_drift_mean_reverting Samples.ive_one
           (Models.params_setter (Cir.CIR Samples.ive_one) Cir.CIR__init__
              [5; 0.03; 0.1]) 5 0.03 [0.1] 2 0).
  - reflexivity.
  - lra.
Defined.

(** X9. On the state space [x >= 0] the square of the CIR diffusion is
    [sigma^2 * x]: it vanishes at [x = 0] and grows linearly with the
    state; with [sigma >= 0] the diffusion itself is non-negative. *)
Theorem CIR_diffusion_squared
  (ive : Np.routine2) (self : Models.Model) (kappa mu sigma : R)
  (rest : list R) (x t : R) :
  Models.params self = Some (kappa :: mu :: sigma :: rest) ->
  0 <= x ->
  exists d,
    Models.diffusion (Cir.CIR ive) self x t = Ok d
    /\ d * d = sigma ^ 2 * x
    /\ (x = 0 -> d = 0)
    /\ (0 <= sigma -> 0 <= d).
Proof.
  intros Hp Hx.
  destruct (CIR_drift_diffusion_defined ive self x t) as (_ & H).
  destruct (H _ Hp) as (_ & _ & _ & Hd).
  exists (sigma * sqrt x). split; [apply (Hd kappa mu sigma rest eq_refl)|].
  pose proof (sqrt_sqrt x Hx) as Hsq. pose proof (sqrt_pos x) as Hpos.
  repeat split.
  - replace (sigma * sqrt x * (sigma * sqrt x))
      with (sigma ^ 2 * (sqrt x * sqrt x)) by ring.
    rewrite Hsq. reflexivity.
  - intros ->. rewrite sqrt_0. ring.
  - intros Hs. now apply Rmult_le_pos.
Qed.

Lemma CIR_diffusion_squared_witness :
  exists d,
    Models.diffusion (Cir.CIR Samples.ive_one)
      (Models.params_setter (Cir.CIR Samples.ive_one) Cir.CIR__init__
         [5; 0.03; 0.1]) 4 0 = Ok d
    /\ d * d = 0.1 ^ 2 * 4
    /\ (4 = 0 -> d = 0)
    /\ (0 <= 0.1 -> 0 <= d).
Proof.
  apply (CIR_diffusion_squared Samples.ive_one
           (Models.params_setter (Cir.CIR Samples.ive_one) Cir.CIR__init__
              [5; 0.03; 0.1]) 5 0.03 0.1 [] 4 0).
  - reflexivity.
  - lra.
Defined.

(** ** The scaled exponential of the CIR density *)








Lemma classify_zero_of (b : bool) : Np.classify (Np.zero b) = Np.KZero b.
Proof. destruct b; [reflexivity | apply classify_zero]. Qed.

Lemma mul_by_zero (a : Np.float64) :
  Np.mul a (Np.Finite 0) = Np.NaN
  \/ exists b, Np.mul a (Np.Finite 0) = Np.zero b.
Proof.
  unfold Np.mul. rewrite classify_zero.
  destruct (Np.classify a) as [|s|s|r]; eauto.
Qed.

Lemma div_zero_by_zero_or_nan (b : bool) (d : Np.float64) :
  d = Np.NaN \/ (exists b', d = Np.zero b') ->
  Np.div (Np.zero b) d = Np.NaN.
Proof.
  intros [-> |[b' ->]]; unfold Np.div; rewrite !classify_zero_of;
    reflexivity.
Qed.

(** X11. With [kappa = 0] the density is NaN for every [mu], [sigma],
    [x0], [xt], [dt] and whatever [ive] returns: [et] is 1, so [c] is the
    quotient of two zeros. *)
Theorem CIR_exact_density_nan_at_kappa_zero
  (ive : Np.routine2) (self : Models.Model) (mu sigma x0 xt t0 dt : R) :
  Models.params self = Some [0; mu; sigma] ->
  Models.exact_density (Cir.CIR ive) self x0 xt t0 dt = Ok Np.NaN.
Proof.
  intros Hp. rewrite (CIR_exact_density_unfold ive self 0 mu sigma) by exact Hp.
  f_equal. unfold Cir.density_formula.
  assert (Hc : Cir.spec_c 0 sigma dt = Np.NaN).
  { unfold Cir.spec_c, Cir.spec_et.
    assert (Hneg : Np.neg (Np.Finite 0) = Np.NegZero).
    { unfold Np.neg. rewrite classify_zero. reflexivity. }
    rewrite Hneg.
    assert (Hkd : exists b, Np.mul Np.NegZero (Np.Finite dt) = Np.zero b).
    { unfold Np.mul. cbn [Np.classify].
      destruct (Req_dec_T dt 0); eauto. }
    destruct Hkd as [b ->].
    assert (Het : Np.exp (Np.zero b) = Np.Finite 1).
    { unfold Np.exp. rewrite classify_zero_of. reflexivity. }
    rewrite Het.
    assert (Hsub : Np.sub (Np.Finite 1) (Np.Finite 1) = Np.Finite 0).
    { unfold Np.sub. rewrite neg_num by lra. unfold Np.add.
      rewrite !classify_num by lra.
      replace (1 + Ropp 1) with 0 by lra. apply round_zero. }
    rewrite Hsub.
    assert (Hnum : Np.mul (Np.Finite 2) (Np.Finite 0) = Np.zero false).
    { unfold Np.mul. rewrite classify_num by lra. rewrite classify_zero.
      unfold Np.negative. destruct (Rlt_dec 2 0); [lra | reflexivity]. }
    rewrite Hnum. apply div_zero_by_zero_or_nan. apply mul_by_zero. }
  rewrite Hc. reflexivity.
Qed.

Lemma CIR_exact_density_nan_at_kappa_zero_witness :
  Models.exact_density (Cir.CIR Samples.ive_one)
    (Models.params_setter (Cir.CIR Samples.ive_one) Cir.CIR__init__
       [0; 0.03; 0.1])
    0.01 0.05 0 0.01
  = Ok Np.NaN.
Proof.
  apply (CIR_exact_density_nan_at_kappa_zero Samples.ive_one
           (Models.params_setter (Cir.CIR Samples.ive_one) Cir.CIR__init__
              [0; 0.03; 0.1])
           0.03 0.1 0.01 0.05 0 0.01).
  reflexivity.
Defined.

(** ** The minimizer: options and failures *)

(** X12. The options of a [ScipyMinimizer] are never merged with the
    defaults: a non-empty mapping given by the caller is stored as it is,
    so a key it leaves out has no value; [None] and the empty mapping both
    give the four defaults. The method and the tolerance are stored as
    given. *)
Theorem ScipyMinimizer_options_not_merged
  (method : string) (tol : R) (options : option Minimizer.dict) :
  Minimizer._method (Minimizer.ScipyMinimizer__init__ method tol options)
  = method
  /\ Minimizer._tol (Minimizer.ScipyMinimizer__init__ method tol options)
     = tol
  /\ (forall d, options = Some d -> d <> [] ->
      Minimizer._options (Minimizer.ScipyMinimizer__init__ method tol options)
      = d)
  /\ (options = None \/ options = Some [] ->
      Minimizer._options (Minimizer.ScipyMinimizer__init__ method tol options)
      = Minimizer._options (Minimizer.ScipyMinimizer__init__ method tol None)
      /\ List.length
           (Minimizer._options
              (Minimizer.ScipyMinimizer__init__ method tol options))
         = 4%nat).
Proof.
  split; [reflexivity|]. split; [reflexivity|]. split.
  - intros d -> Hd. destruct d; [now elim Hd | reflexivity].
  - intros [->| ->]; split; reflexivity.
Qed.

Lemma ScipyMinimizer_options_not_merged_witness :
  Minimizer._options
    (Minimizer.ScipyMinimizer__init__ Minimizer.method_default
       Minimizer.tol_default (Some [("maxiter", Minimizer.PyInt 10)]))
  = [("maxiter", Minimizer.PyInt 10)]
  /\ List.length
       (Minimizer._options
          (Minimizer.ScipyMinimizer__init__ Minimizer.method_default
             Minimizer.tol_default (Some [])))
     = 4%nat.
Proof.
  destruct (ScipyMinimizer_options_not_merged Minimizer.method_default
              Minimizer.tol_default (Some [("maxiter", Minimizer.PyInt 10)]))
    as (_ & _ & H & _).
  destruct (ScipyMinimizer_options_not_merged Minimizer.method_default
              Minimizer.tol_default (Some []))
    as (_ & _ & _ & H').
  split.
  - apply H; [reflexivity | discriminate].
  - apply H'. right. reflexivity.
Defined.

(** X13. [minimize] has no handler of its own: it returns a [Result]
    exactly when the routine returns a report, and an exception raised by
    the routine reaches the caller unchanged; a report with
    [success = False] is returned, not raised. *)
Theorem minimize_propagates_routine_outcome
  (scipy_minimize :
     (list R -> R) -> option (list R) -> R -> string ->
     option Minimizer.Bounds -> Minimizer.dict ->
     result Minimizer.OptimizeResult)
  (self : Minimizer.ScipyMinimizer) (function : list R -> R)
  (bounds : option Minimizer.Bounds) (guess : option (list R)) :
  (forall e,
      Minimizer.minimize scipy_minimize self function bounds guess = Raise e
      <-> scipy_minimize function guess (Minimizer._tol self)
            (Minimizer._method self) bounds (Minimizer._options self)
          = Raise e)
  /\ (forall r,
        Minimizer.minimize scipy_minimize self function bounds guess = Ok r
        <-> exists res,
              scipy_minimize function guess (Minimizer._tol self)
                (Minimizer._method self) bounds (Minimizer._options self)
              = Ok res
              /\ r = Minimizer.mkResult (Minimizer.res_x res)
                       (Minimizer.res_fun res) (Minimizer.res_success res)
                       (Minimizer.res_message res)).
Proof.
  unfold Minimizer.minimize.
  destruct (scipy_minimize function guess (Minimizer._tol self)
              (Minimizer._method self) bounds (Minimizer._options self))
    as [res|e']; cbn [bind]; split.
  - intros e. split; discriminate.
  - intros r. split.
    + intros H. exists res. split; [reflexivity|].
      injection H as <-. reflexivity.
    + intros [res' [Hres ->]]. injection Hres as <-. reflexivity.
  - intros e. split; congruence.
  - intros r. split; [discriminate|]. intros [res [Hres _]]. discriminate.
Qed.

Lemma minimize_propagates_routine_outcome_witness :
  Minimizer.minimize Samples.failing_routine
    (Minimizer.ScipyMinimizer__init__ Minimizer.method_default
       Minimizer.tol_default None)
    (fun p => 0) None None
  = Raise ValueError
  /\ Minimizer.minimize Samples.routine
       (Minimizer.ScipyMinimizer__init__ Minimizer.method_default
          Minimizer.tol_default None)
       (fun p => 0) None (Some [0; 0])
     = Ok (Minimizer.mkResult [3; -1] 0 false "max iterations reached").
Proof.
  destruct (minimize_propagates_routine_outcome Samples.failing_routine
              (Minimizer.ScipyMinimizer__init__ Minimizer.method_default
                 Minimizer.tol_default None)
              (fun p => 0) None None) as (H & _).
  destruct (minimize_propagates_routine_outcome Samples.routine
              (Minimizer.ScipyMinimizer__init__ Minimizer.method_default
                 Minimizer.tol_default None)
              (fun p => 0) None (Some [0; 0])) as (_ & H').
  split.
  - apply H. reflexivity.
  - apply H'. exists Samples.report. split; reflexivity.
Defined.

(** ** The mean squared error as a distance *)

Section ErrorMetricFacts.
Import DataUtils.

Lemma squares_sum_nonneg (x y : list R) :
  0 <= fold_right Rplus 0
         (map (fun ab => (fst ab - snd ab) ^ 2) (combine x y)).
Proof.
  revert y. induction x as [|a x IH]; intros [|b y];
    cbn [combine map fold_right fst snd]; try lra.
  pose proof (IH y) as Hrec. pose proof (pow2_ge_0 (a - b)) as Hsq. lra.
Qed.

Lemma squares_sum_swap (x y : list R) :
  fold_right Rplus 0 (map (fun ab => (fst ab - snd ab) ^ 2) (combine x y))
  = fold_right Rplus 0 (map (fun ab => (fst ab - snd ab) ^ 2) (combine y x)).
Proof.
  revert y. induction x as [|a x IH]; intros [|b y];
    cbn [combine map fold_right fst snd]; try reflexivity.
  rewrite (IH y). ring.
Qed.

Lemma squares_sum_zero_iff (x y : list R) :
  List.length x = List.length y ->
  (fold_right Rplus 0 (map (fun ab => (fst ab - snd ab) ^ 2) (combine x y))
   = 0
   <-> x = y).
Proof.
  revert y. induction x as [|a x IH]; intros [|b y] Hlen;
    try discriminate; cbn [combine map fold_right fst snd].
  - split; reflexivity.
  - injection Hlen as Hlen. specialize (IH y Hlen).
    pose proof (squares_sum_nonneg x y) as Hrec.
    pose proof (pow2_ge_0 (a - b)) as Hsq. split.
    + intros Hsum.
      assert (Hab : (a - b) ^ 2 = 0) by lra.
      assert (Hxy : fold_right Rplus 0
                      (map (fun ab => (fst ab - snd ab) ^ 2) (combine x y))
                    = 0) by lra.
      apply IH in Hxy. subst y. f_equal. nra.
    + intros Heq. injection Heq as -> <-.
      rewrite (proj2 IH eq_refl). ring.
Qed.

Lemma mean_squared_error_length_mismatch (x_1 x_2 : list R) :
  List.length x_1 <> List.length x_2 ->
  mean_squared_error x_1 x_2 = Raise ValueError.
Proof.
  intros Hlen. unfold mean_squared_error.
  rewrite (proj2 (Nat.eqb_neq _ _) Hlen). reflexivity.
Qed.

Lemma mean_squared_error_ok_inv (x_1 x_2 : list R) (m : R) :
  mean_squared_error x_1 x_2 = Ok m ->
  List.length x_1 = List.length x_2
  /\ x_1 <> []
  /\ m = fold_right Rplus 0
           (map (fun ab => (fst ab - snd ab) ^ 2) (combine x_1 x_2))
         / INR (List.length x_1).
Proof.
  intros Hm.
  destruct (Nat.eq_dec (List.length x_1) (List.length x_2)) as [Hlen|Hlen].
  - rewrite mean_squared_error_equal_length in Hm by assumption.
    destruct x_1 as [|a x_1]; [discriminate|].
    repeat split; [assumption | discriminate |].
    cbn [truediv_int List.length] in Hm. injection Hm as <-. reflexivity.
  - rewrite mean_squared_error_length_mismatch in Hm by assumption.
    discriminate.
Qed.

End ErrorMetricFacts.

(** X14. [mean_squared_error] is symmetric in its two arguments, in the
    value it returns and in the exception it raises. *)
Theorem mean_squared_error_symmetric (x_1 x_2 : list R) :
  DataUtils.mean_squared_error x_1 x_2 = DataUtils.mean_squared_error x_2 x_1.
Proof.
  destruct (Nat.eq_dec (List.length x_1) (List.length x_2)) as [Hlen|Hlen].
  - rewrite (mean_squared_error_equal_length x_1 x_2 Hlen).
    rewrite (mean_squared_error_equal_length x_2 x_1 (eq_sym Hlen)).
    rewrite squares_sum_swap, Hlen. reflexivity.
  - rewrite (mean_squared_error_length_mismatch x_1 x_2 Hlen).
    rewrite (mean_squared_error_length_mismatch x_2 x_1);
      [reflexivity | congruence].
Qed.

(** X15. A value returned by [mean_squared_error] is non-negative, and it
    is zero exactly when the two sequences are equal. *)
Theorem mean_squared_error_nonneg_zero_iff_equal
  (x_1 x_2 : list R) (m : R) :
  DataUtils.mean_squared_error x_1 x_2 = Ok m ->
  0 <= m /\ (m = 0 <-> x_1 = x_2).
Proof.
  intros Hm. apply mean_squared_error_ok_inv in Hm as (Hlen & Hne & ->).
  assert (Hn : 0 < INR (List.length x_1)).
  { apply lt_0_INR. destruct x_1; [now elim Hne | simpl; lia]. }
  pose proof (squares_sum_nonneg x_1 x_2) as Hsum.
  pose proof (Rinv_0_lt_compat _ Hn) as Hinv.
  split.
  - unfold Rdiv. apply Rmult_le_pos; lra.
  - rewrite <- (squares_sum_zero_iff x_1 x_2 Hlen). unfold Rdiv. split.
    + intros Hz. apply Rmult_integral in Hz as [Hz|Hz]; [exact Hz | lra].
    + intros ->. ring.
Qed.

Lemma mean_squared_error_nonneg_zero_iff_equal_witness :
  0 <= 1 / 3 /\ (1 / 3 = 0 <-> [1; 2; 3] = [1; 2; 4]).
Proof.
  apply (mean_squared_error_nonneg_zero_iff_equal [1; 2; 3] [1; 2; 4]).
  rewrite mean_squared_error_equal_length by reflexivity.
  cbn [List.length DataUtils.truediv_int combine map fold_right fst snd].
  f_equal. simpl. field.
Defined.

(** X16. [mean_squared_error] raises [ValueError] exactly when the lengths
    differ, [ZeroDivisionError] exactly when both sequences are empty, and
    no other exception: indexing never goes out of range. In every other
    case it returns a value. *)
Theorem mean_squared_error_outcomes (x_1 x_2 : list R) :
  (DataUtils.mean_squared_error x_1 x_2 = Raise ValueError
   <-> List.length x_1 <> List.length x_2)
  /\ (DataUtils.mean_squared_error x_1 x_2 = Raise ZeroDivisionError
      <-> x_1 = [] /\ x_2 = [])
  /\ (forall e, DataUtils.mean_squared_error x_1 x_2 = Raise e ->
      e = ValueError \/ e = ZeroDivisionError)
  /\ ((exists m, DataUtils.mean_squared_error x_1 x_2 = Ok m)
      <-> List.length x_1 = List.length x_2 /\ x_1 <> []).
Proof.
  destruct (Nat.eq_dec (List.length x_1) (List.length x_2)) as [Hlen|Hlen].
  - rewrite (mean_squared_error_equal_length x_1 x_2 Hlen).
    destruct x_1 as [|a x_1]; destruct x_2 as [|b x_2]; try discriminate;
      cbn [DataUtils.truediv_int List.length].
    + split; [|split; [|split]].
      * split; [discriminate | intros H; now elim H].
      * split; [intros _; split; reflexivity | reflexivity].
      * intros e He. right. congruence.
      * split; [intros [m Hm]; discriminate | intros [_ H]; now elim H].
    + split; [|split; [|split]].
      * split; [discriminate | intros H; now elim H].
      * split; [discriminate | intros [H _]; discriminate].
      * intros e He. discriminate.
      * split; [intros _; split; [assumption | discriminate]|].
        intros _. eexists. reflexivity.
  - rewrite (mean_squared_error_length_mismatch x_1 x_2 Hlen).
    split; [|split; [|split]].
    + split; [intros _; assumption | reflexivity].
    + split; [discriminate | intros [-> ->]; now elim Hlen].
    + intros e He. left. congruence.
    + split; [intros [m Hm]; discriminate | intros [H _]; contradiction].
Qed.

Lemma mean_squared_error_outcomes_witness :
  DataUtils.mean_squared_error [1; 5] [3] = Raise ValueError
  /\ DataUtils.mean_squared_error [] [] = Raise ZeroDivisionError
  /\ exists m, DataUtils.mean_squared_error [1; 5] [3; 5] = Ok m.
Proof.
  destruct (mean_squared_error_outcomes [1; 5] [3]) as (H1 & _).
  destruct (mean_squared_error_outcomes [] []) as (_ & H2 & _).
  destruct (mean_squared_error_outcomes [1; 5] [3; 5]) as (_ & _ & _ & H3).
  split; [|split].
  - apply H1. simpl. lia.
  - apply H2. split; reflexivity.
  - apply H3. split; [reflexivity | discriminate].
Defined.

(** ** The empirical estimators *)

Section EstimatorFacts.
Import DataUtils.

Lemma count_true_le (mask : list bool) :
  (count_true mask <= List.length mask)%nat.
Proof.
  unfold count_true. induction mask as [|b mask IH]; simpl.
  - lia.
  - destruct b; simpl; lia.
Qed.

Lemma ratio_bounds (k n : nat) :
  (k <= n)%nat -> (0 < n)%nat -> 0 <= INR k / INR n <= 1.
Proof.
  intros Hkn Hn.
  pose proof (pos_INR k) as Hk. pose proof (lt_0_INR n Hn) as Hn'.
  pose proof (le_INR k n Hkn) as Hle.
  pose proof (Rinv_0_lt_compat _ Hn') as Hinv.
  unfold Rdiv. split.
  - apply Rmult_le_pos; lra.
  - apply Rmult_le_reg_r with (INR n); [exact Hn'|].
    rewrite Rmult_assoc, Rinv_l by lra. lra.
Qed.

Lemma ratio_zero_iff (k n : nat) :
  (0 < n)%nat -> (INR k / INR n = 0 <-> k = O).
Proof.
  intros Hn. pose proof (lt_0_INR n Hn) as Hn'.
  pose proof (Rinv_0_lt_compat _ Hn') as Hinv. unfold Rdiv. split.
  - intros Hz. apply Rmult_integral in Hz as [Hz|Hz]; [|lra].
    now apply INR_eq.
  - intros ->. simpl. ring.
Qed.

Lemma np_mean_finite (mask : list bool) :
  mask <> [] ->
  np_mean mask = Finite (INR (count_true mask) / INR (List.length mask)).
Proof.
  destruct mask; [intros H; now elim H | reflexivity].
Qed.

Lemma ge_mask_length (series : list R) (level : R) :
  List.length (ge_mask series level) = List.length series.
Proof. unfold ge_mask. apply length_map. Qed.

Lemma slice_to_length (series : list R) (T : Z) :
  Z.of_nat (List.length (slice_to series T))
  = (if 0 <=? T
     then Z.min T (Z.of_nat (List.length series))
     else Z.max 0 (Z.of_nat (List.length series) + T))%Z.
Proof.
  unfold slice_to. destruct (0 <=? T)%Z eqn:HT.
  - apply Z.leb_le in HT. rewrite length_firstn. lia.
  - apply Z.leb_gt in HT. rewrite length_firstn. lia.
Qed.

Lemma count_true_zero_iff (series : list R) (level : R) :
  count_true (ge_mask series level) = O
  <-> forall v, In v series -> ~ v >= level.
Proof.
  unfold count_true, ge_mask, geb.
  induction series as [|a series IH]; simpl.
  - split; [intros _ v [] | reflexivity].
  - destruct (Rge_dec a level) as [Ha|Ha]; simpl.
    + split; [discriminate|]. intros H. elim (H a); [now left | exact Ha].
    + rewrite IH. split.
      * intros H v [<-|Hv]; [exact Ha | now apply H].
      * intros H v Hv. apply H. now right.
Qed.

End EstimatorFacts.

(** X17. [conditional_expectation] returns a fraction: a finite result
    lies between 0 and 1. It returns NaN exactly when the window
    [model[:T]] is empty, that is when the model sequence is empty, [T] is
    0, or [T] is negative and at least as large in magnitude as the
    length. *)
Theorem conditional_expectation_range
  (data model : list R) (starting_point target_level : R) (T : Z) :
  (forall p,
      DataUtils.conditional_expectation data model starting_point
        target_level T = DataUtils.Finite p ->
      0 <= p <= 1)
  /\ (DataUtils.conditional_expectation data model starting_point
        target_level T = DataUtils.NaN
      <-> (model = [] \/ T = 0 \/ T <= - Z.of_nat (List.length model))%Z).
Proof.
  unfold DataUtils.conditional_expectation.
  pose proof (slice_to_length model T) as Hlen.
  pose proof (ge_mask_length (DataUtils.slice_to model T) target_level)
    as Hmask.
  destruct (DataUtils.ge_mask (DataUtils.slice_to model T) target_level)
    as [|b mask] eqn:Hm.
  - split; [discriminate|]. split; [|reflexivity]. intros _.
    cbn [List.length] in Hmask. rewrite <- Hmask in Hlen.
    destruct model as [|a model]; [now left | right].
    cbn [List.length] in *. destruct (0 <=? T)%Z eqn:HT.
    + apply Z.leb_le in HT. lia.
    + apply Z.leb_gt in HT. lia.
  - split.
    + intros p Hp. rewrite np_mean_finite in Hp by discriminate.
      assert (Hp' : INR (DataUtils.count_true (b :: mask))
                    / INR (List.length (b :: mask)) = p) by congruence.
      rewrite <- Hp'. apply ratio_bounds.
      * apply count_true_le.
      * cbn [List.length]. lia.
    + split; [discriminate|]. intros H. exfalso.
      rewrite <- Hmask in Hlen. cbn [List.length] in Hlen.
      destruct (0 <=? T)%Z eqn:HT.
      * apply Z.leb_le in HT.
        destruct H as [->|[->|H]]; cbn [List.length] in *; lia.
      * apply Z.leb_gt in HT.
        destruct H as [->|[->|H]]; cbn [List.length] in *; lia.
Qed.

Lemma conditional_expectation_range_witness :
  0 <= INR 2 / INR 4 <= 1
  /\ DataUtils.conditional_expectation [] [1; 2; 5] 1 3 (-3) = DataUtils.NaN.
Proof.
  destruct (conditional_expectation_range [] [1; 2; 5; 3; 7] 1 3 4)
    as (H & _).
  destruct (conditional_expectation_range [] [1; 2; 5] 1 3 (-3))
    as (_ & H').
  split.
  - apply H. unfold DataUtils.conditional_expectation. simpl.
    unfold DataUtils.geb.
    repeat (destruct (Rge_dec _ _); try lra). reflexivity.
  - apply H'. right. right. simpl. lia.
Defined.

(** X18. [conditional_expectation] looks at the window [model[:T]] only:
    two model sequences with the same first [T] values give the same
    result, a [T] beyond the length gives the result of the whole
    sequence, and a negative [T] that leaves a window gives the result of
    the horizon [len + T]. *)
Theorem conditional_expectation_window
  (data model model' : list R) (starting_point target_level : R) (T : Z) :
  ((0 <= T)%Z ->
   firstn (Z.to_nat T) model = firstn (Z.to_nat T) model' ->
   DataUtils.conditional_expectation data model starting_point
     target_level T
   = DataUtils.conditional_expectation data model' starting_point
       target_level T)
  /\ ((Z.of_nat (List.length model) <= T)%Z ->
      DataUtils.conditional_expectation data model starting_point
        target_level T
      = DataUtils.conditional_expectation data model starting_point
          target_level (Z.of_nat (List.length model)))
  /\ ((- Z.of_nat (List.length model) <= T < 0)%Z ->
      DataUtils.conditional_expectation data model starting_point
        target_level T
      = DataUtils.conditional_expectation data model starting_point
          target_level (Z.of_nat (List.length model) + T)).
Proof.
  unfold DataUtils.conditional_expectation, DataUtils.slice_to.
  split; [|split].
  - intros HT Hpre. rewrite (proj2 (Z.leb_le 0 T) HT), Hpre. reflexivity.
  - intros HT.
    rewrite (proj2 (Z.leb_le 0 T)) by lia.
    rewrite (proj2 (Z.leb_le 0 (Z.of_nat (List.length model)))) by lia.
    rewrite Nat2Z.id, firstn_all, firstn_all2 by lia. reflexivity.
  - intros HT.
    rewrite (proj2 (Z.leb_gt 0 T)) by lia.
    rewrite (proj2 (Z.leb_le 0 (Z.of_nat (List.length model) + T))) by lia.
    do 3 f_equal. lia.
Qed.

Lemma conditional_expectation_window_witness :
  DataUtils.conditional_expectation [] [1; 2; 5; 3; 7] 1 3 2
  = DataUtils.conditional_expectation [] [1; 2; 0] 1 3 2
  /\ DataUtils.conditional_expectation [] [1; 2; 5] 1 3 9
     = DataUtils.conditional_expectation [] [1; 2; 5] 1 3 3
  /\ DataUtils.conditional_expectation [] [1; 2; 5] 1 3 (-1)
     = DataUtils.conditional_expectation [] [1; 2; 5] 1 3 2.
Proof.
  destruct (conditional_expectation_window [] [1; 2; 5; 3; 7] [1; 2; 0]
              1 3 2) as (H1 & _).
  destruct (conditional_expectation_window [] [1; 2; 5] [] 1 3 9)
    as (_ & H2 & _).
  destruct (conditional_expectation_window [] [1; 2; 5] [] 1 3 (-1))
    as (_ & _ & H3).
  split; [|split].
  - apply H1; [lia | reflexivity].
  - apply H2. simpl. lia.
  - apply H3. simpl. lia.
Defined.

(** X19. An index returned by [expected_time_to_target] lies inside the
    model sequence; a non-zero index is always a true first hit (the value
    there is at or above the target and no earlier one is), and the index
    0 means either a hit at the first value or no hit at all. The only
    exception is [ValueError], for the empty sequence. *)
Theorem expected_time_to_target_sound
  (data model : list R) (starting_point target_level : R) (max_periods : Z) :
  (forall i,
      DataUtils.expected_time_to_target data model starting_point
        target_level max_periods = Ok i ->
      (i < List.length model)%nat
      /\ (i <> O ->
          nth i model 0 >= target_level
          /\ forall j, (j < i)%nat -> ~ nth j model 0 >= target_level)
      /\ (i = O ->
          nth 0 model 0 >= target_level
          \/ forall v, In v model -> ~ v >= target_level))
  /\ (forall e,
        DataUtils.expected_time_to_target data model starting_point
          target_level max_periods = Raise e ->
        e = ValueError /\ model = []).
Proof.
  unfold DataUtils.expected_time_to_target.
  destruct model as [|a model].
  - split; [discriminate|]. simpl. intros e He. split; congruence.
  - rewrite np_argmax_ge_mask by discriminate. cbn [bind].
    split; [|discriminate]. intros i Hi.
    destruct (DataUtils.first_at_or_above (a :: model) target_level)
      as [k|] eqn:Hk.
    + assert (k = i) by congruence. subst k.
      destruct (first_at_or_above_some _ _ _ Hk) as (Hlt & Hge & Hbefore).
      split; [exact Hlt|]. split.
      * intros _. split; assumption.
      * intros ->. left. exact Hge.
    + assert (i = O) by congruence. subst i.
      split; [simpl; lia|]. split.
      * intros H. now elim H.
      * intros _. right. now apply first_at_or_above_none.
Qed.

Lemma expected_time_to_target_sound_witness :
  (2 < 5)%nat
  /\ (2%nat <> O ->
      nth 2 [1; 2; 5; 3; 7] 0 >= 4
      /\ forall j, (j < 2)%nat -> ~ nth j [1; 2; 5; 3; 7] 0 >= 4).
Proof.
  destruct (expected_time_to_target_sound [] [1; 2; 5; 3; 7] 1 4 3)
    as (H & _).
  destruct (H 2%nat) as (Hlt & Hhit & _).
  - unfold DataUtils.expected_time_to_target. simpl. unfold DataUtils.geb.
    repeat (destruct (Rge_dec _ _); try lra). reflexivity.
  - split; [exact Hlt | exact Hhit].
Defined.

(** X20. The two estimators agree on whether the target is reached: over
    the whole of a non-empty model sequence, [conditional_expectation] is
    a finite fraction that is 0 exactly when no value reaches the target,
    in which case [expected_time_to_target] returns 0; when the fraction is
    positive, [expected_time_to_target] returns the position of a value at
    or above the target. *)
Theorem estimators_agree_on_hits
  (data model : list R) (starting_point target_level : R) (max_periods : Z) :
  model <> [] ->
  exists p,
    DataUtils.conditional_expectation data model starting_point target_level
      (Z.of_nat (List.length model)) = DataUtils.Finite p
    /\ (p = 0 <-> forall v, In v model -> ~ v >= target_level)
    /\ (p = 0 ->
        DataUtils.expected_time_to_target data model starting_point
          target_level max_periods = Ok O)
    /\ (0 < p ->
        exists i,
          DataUtils.expected_time_to_target data model starting_point
            target_level max_periods = Ok i
          /\ nth i model 0 >= target_level).
Proof.
  intros Hne.
  assert (Hn : (0 < List.length model)%nat).
  { destruct model; [now elim Hne | simpl; lia]. }
  exists (INR (DataUtils.count_true (DataUtils.ge_mask model target_level))
          / INR (List.length model)).
  assert (Hzero :
            INR (DataUtils.count_true (DataUtils.ge_mask model target_level))
            / INR (List.length model) = 0
            <-> forall v, In v model -> ~ v >= target_level).
  { rewrite ratio_zero_iff by assumption. apply count_true_zero_iff. }
  unfold DataUtils.expected_time_to_target.
  rewrite np_argmax_ge_mask by assumption. cbn [bind].
  split; [|split; [exact Hzero | split]].
  - unfold DataUtils.conditional_expectation, DataUtils.slice_to.
    rewrite (proj2 (Z.leb_le 0 _)) by lia.
    rewrite Nat2Z.id, firstn_all.
    rewrite np_mean_finite, ge_mask_length; [reflexivity|].
    intros Hm. apply (f_equal (@List.length bool)) in Hm.
    rewrite ge_mask_length in Hm. simpl in Hm. lia.
  - intros Hp. pose proof (proj1 Hzero Hp) as Hnone.
    destruct (DataUtils.first_at_or_above model target_level) as [k|] eqn:Hk;
      [|reflexivity].
    destruct (first_at_or_above_some _ _ _ Hk) as (Hlt & Hge & _).
    elim (Hnone (nth k model 0)); [now apply nth_In | exact Hge].
  - intros Hp.
    destruct (DataUtils.first_at_or_above model target_level) as [k|] eqn:Hk.
    + exists k. split; [reflexivity|].
      apply (first_at_or_above_some _ _ _ Hk).
    + exfalso. pose proof (first_at_or_above_none _ _ Hk) as Hnone.
      pose proof (proj2 Hzero Hnone) as Hz. lra.
Qed.

Lemma estimators_agree_on_hits_witness :
  exists p,
    DataUtils.conditional_expectation [] [1; 2; 3] 1 4
      (Z.of_nat (List.length [1; 2; 3])) = DataUtils.Finite p
    /\ (p = 0 <-> forall v, In v [1; 2; 3] -> ~ v >= 4)
    /\ (p = 0 -> DataUtils.expected_time_to_target [] [1; 2; 3] 1 4 3 = Ok O)
    /\ (0 < p ->
        exists i,
          DataUtils.expected_time_to_target [] [1; 2; 3] 1 4 3 = Ok i
          /\ nth i [1; 2; 3] 0 >= 4).
Proof.
  apply (estimators_agree_on_hits [] [1; 2; 3] 1 4 3). discriminate.
Defined.
